(** * go-signature: verification of signed HTTP requests

    A shallow embedding of [signature.go] (package [signature] of
    manifoldco/go-signature) and the properties its specification states.

    Go strings and byte slices are byte sequences: both are modelled as
    [string] (a list of 8-bit characters).  Functions of Go's standard
    library that only look at bytes are modelled on bytes; the ones that
    depend on Unicode tables or on the clock are fields of the class
    [GoRuntime], so every theorem holds whatever they compute. *)

From Bignums Require Import BigZ.
From Stdlib Require Import ZArith Lia Btauto Ascii String List DecimalString.
From coqutil Require Import Z.bitblast.
From stdpp Require Import base decidable option list sorting strings gmap.

Local Open Scope Z_scope.

(** ** Bytes *)

Definition LF : ascii := "010"%char.
Definition byte_val (c : ascii) : Z := Z.of_N (N_of_ascii c).
Definition byte_of (z : Z) : ascii := ascii_of_N (Z.to_N (z mod 256)).

Definition between (lo hi c : ascii) : bool :=
  (byte_val lo <=? byte_val c) && (byte_val c <=? byte_val hi).
Definition is_upper (c : ascii) : bool := between "A" "Z" c.
Definition is_lower (c : ascii) : bool := between "a" "z" c.
Definition is_digit (c : ascii) : bool := between "0" "9" c.

(** The distance between the two cases of a letter ([toLower] of
    net/textproto, ['a' - 'A']). *)
Definition toLower : Z := 32.
Definition lower_byte (c : ascii) : ascii :=
  if is_upper c then byte_of (byte_val c + toLower) else c.
Definition upper_byte (c : ascii) : ascii :=
  if is_lower c then byte_of (byte_val c - toLower) else c.

Fixpoint string_map (f : ascii -> ascii) (s : string) : string :=
  match s with
  | EmptyString => EmptyString
  | String c s' => String (f c) (string_map f s')
  end.

Fixpoint string_forallb (f : ascii -> bool) (s : string) : bool :=
  match s with
  | EmptyString => true
  | String c s' => f c && string_forallb f s'
  end.

(** ** package strings, package sort *)

(** [strings.Split(s, sep)] for a separator of one byte, the only kind
    this package passes: the pieces of [s] between the occurrences of
    [sep], one more piece than there are occurrences. *)
Fixpoint strings_Split (s : string) (sep : ascii) : list string :=
  match s with
  | EmptyString => [EmptyString]
  | String c s' =>
      if decide (c = sep) then EmptyString :: strings_Split s' sep
      else match strings_Split s' sep with
           | p :: ps => String c p :: ps
           | [] => [String c EmptyString]
           end
  end.

(** [strings.Join(elems, sep)]. *)
Fixpoint strings_Join (elems : list string) (sep : string) : string :=
  match elems with
  | [] => ""
  | [e] => e
  | e :: rest => e +:+ sep +:+ strings_Join rest sep
  end.

(** [sort.Strings]: the slice in increasing order of Go's [<] on strings,
    which compares byte by byte. *)
Definition sort_Strings (a : list string) : list string :=
  merge_sort String.le a.

(** ASCII-only case folding and trimming, used to instantiate [GoRuntime];
    they agree with [strings.ToLower] and [strings.TrimSpace] on strings of
    ASCII bytes. *)
Definition ascii_ToLower (s : string) : string := string_map lower_byte s.

Fixpoint trim_left (s : string) : string :=
  match s with
  | String c s' => if Ascii.is_space c then trim_left s' else s
  | EmptyString => EmptyString
  end.
Definition ascii_TrimSpace (s : string) : string :=
  String.rev (trim_left (String.rev (trim_left s))).

(** ** package net/textproto, net/http: header maps *)

(** [validHeaderFieldByte]: the bytes of an RFC 7230 token. *)
Definition validHeaderFieldByte (c : ascii) : bool :=
  is_upper c || is_lower c || is_digit c ||
  bool_decide (c ∈ ["!"; "#"; "$"; "%"; "&"; "'"; "*"; "+"; "-"; "."; "^";
                    "_"; "`"; "|"; "~"]%char).

(** The loop of [canonicalMIMEHeaderKey]: a letter is put in upper case
    at the start and after a dash, in lower case elsewhere. *)
Fixpoint canonicalize (upper : bool) (a : string) : string :=
  match a with
  | EmptyString => EmptyString
  | String c a' =>
      let c := if upper then upper_byte c else lower_byte c in
      String c (canonicalize (bool_decide (c = "-"%char)) a')
  end.

(** [http.CanonicalHeaderKey] = [textproto.CanonicalMIMEHeaderKey]: a key
    with a byte that is not a token byte is returned unchanged. *)
Definition CanonicalHeaderKey (s : string) : string :=
  if string_forallb validHeaderFieldByte s then canonicalize true s else s.

(** [http.Header] is [map[string][]string]. *)
Abbreviation Header := (gmap string (list string)).

(** Indexing a Go map: the zero value (a nil slice) for an absent key. *)
Definition Header_index (h : Header) (key : string) : list string :=
  default [] (h !! key).

(** [Header.Get]: the first value under the canonical form of [key]. *)
Definition Header_Get (h : Header) (key : string) : string :=
  match Header_index h (CanonicalHeaderKey key) with
  | v :: _ => v
  | [] => ""
  end.

(** ** Errors, readers *)

(** [type Error struct]: an unsuccessful HTTP response. *)
Record Error := mkError { Code : Z; Message : string }.

(** A value of Go's interface [error] that is not nil: an [*Error] of this
    package, or an error of another type, known by its text. *)
Inductive error :=
| error_Error (e : Error)
| error_other (text : string).

Global Instance Error_eq_dec : EqDecision Error.
Proof. solve_decision. Defined.
Global Instance error_eq_dec : EqDecision error.
Proof. solve_decision. Defined.

(** An [io.Reader], by its state: the bytes it has yet to yield, and the
    error that ends them ([None] for [io.EOF]).  Reading consumes: a reader
    that has been read to the end has no byte left to yield. *)
Record Reader := mkReader { rd_data : string; rd_err : option error }.
Definition drained (r : Reader) : Reader := mkReader "" (rd_err r).

(** [bytes.NewBufferString], [bytes.NewReader]: reading memory cannot fail. *)
Definition bytes_NewReader (b : string) : Reader := mkReader b None.

(** ** The request *)

Record URL := mkURL {
  Path : string;
  RawPath : string;
  RawQuery : string;
  URL_Host : string
}.

Record Request := mkRequest {
  Method : string;
  Request_URL : URL;
  Request_Header : Header;
  Host : string;
  Body : Reader
}.

Definition MethodGet : string := "GET".

(** ** What the package takes from Go's runtime *)

(** Instants are nanoseconds since the Unix epoch; a [time.Duration] is an
    int64 count of nanoseconds. *)
Abbreviation Instant := Z (only parsing).
Abbreviation Duration := Z (only parsing).

Definition minInt64 : Z := - 2 ^ 63.
Definition maxInt64 : Z := 2 ^ 63 - 1.

Class GoRuntime := {
  (** [strings.ToLower] *)
  strings_ToLower : string -> string;
  (** [strings.TrimSpace] *)
  strings_TrimSpace : string -> string;
  (** [URL.EscapedPath] of net/url *)
  EscapedPath : URL -> string;
  (** [time.Parse(time.RFC3339, _)], [None] when it returns an error *)
  time_Parse_RFC3339 : string -> option Instant;
  (** the package variable [timeSince], [time.Since] unless replaced *)
  timeSince : Instant -> Duration;
  (** how [encoding/json] writes a string, quotes included *)
  json_string : string -> string
}.

(** ** bytes.Buffer *)

Definition WriteString (msg s : string) : string := msg +:+ s.
Definition WriteRune (msg : string) (r : ascii) : string :=
  msg +:+ String r EmptyString.

(** [io.Copy(&msg, body)]: everything [body] yields is appended; the error
    is the one that ended the reading, nil at end of file.  It leaves [body]
    drained; the package does not read it again after [Canonize]. *)
Definition io_Copy (msg : string) (body : Reader) : string * option error :=
  (msg +:+ rd_data body, rd_err body).

Section Canonicalizer.
Context `{GoRuntime}.

(** The body of the loop over the signed headers. *)
Definition write_header (req : Request) (msg : string) (h : string) : string :=
  let ch := CanonicalHeaderKey h in
  let rhvs := Header_index (Request_Header req) ch in
  let rhvs :=
    if decide (ch = "Host") then
      let host := Host req in
      let host := if decide (host = "") then URL_Host (Request_URL req) else host in
      [host]
    else rhvs in
  let msg := WriteString msg (strings_ToLower h) in
  let msg := WriteString msg ": " in
  let hvs := fold_left (fun hvs hv => hvs ++ [strings_TrimSpace hv]) rhvs [] in
  let msg := WriteString msg (strings_Join hvs ", ") in
  WriteRune msg LF.

(** [func Canonize(req *http.Request, body io.Reader) ([]byte, error)] *)
Definition Canonize (req : Request) (body : Reader) : string * option error :=
  let msg := "" in
  let method := Method req in
  let method := if decide (method = "") then MethodGet else method in
  let msg := WriteString msg (strings_ToLower method) in
  let msg := WriteRune msg " " in
  let msg := WriteString msg (EscapedPath (Request_URL req)) in
  let msg :=
    if (0 <? String.length (RawQuery (Request_URL req)))%nat then
      let msg := WriteRune msg "?" in
      let parts := strings_Split (RawQuery (Request_URL req)) "&" in
      let parts := sort_Strings parts in
      WriteString msg (strings_Join parts "&")
    else msg in
  let msg := WriteRune msg LF in
  let headers := strings_Split (Header_Get (Request_Header req) "x-signed-headers") " " in
  let headers := headers ++ ["x-signed-headers"] in
  let msg := fold_left (write_header req) headers msg in
  io_Copy msg body.

End Canonicalizer.

(** ** A runtime to run the package on

    The fields of [GoRuntime] for inputs in ASCII: what Go's functions
    compute on them, leaving out what they do with other runes. *)

(** [url.URL.EscapedPath] for a URL without [RawPath]: [escape(Path,
    encodePath)], which keeps letters, digits and [-_.~$&+,/:;=@] and
    writes any other byte as a percent sign and two upper case hex digits. *)
Definition shouldEscape (c : ascii) : bool :=
  negb (is_upper c || is_lower c || is_digit c ||
        bool_decide (c ∈ ["-"; "_"; "."; "~"; "$"; "&"; "+"; ","; "/"; ":";
                          ";"; "="; "@"]%char)).
Definition upperhex (d : Z) : ascii :=
  if d <? 10 then byte_of (byte_val "0" + d) else byte_of (byte_val "A" + d - 10).
Fixpoint escape (s : string) : string :=
  match s with
  | EmptyString => EmptyString
  | String c s' =>
      if shouldEscape c then
        String "%" (String (upperhex (Z.shiftr (byte_val c) 4))
                   (String (upperhex (Z.land (byte_val c) 15)) (escape s')))
      else String c (escape s')
  end.
Definition plain_EscapedPath (u : URL) : string :=
  if decide (Path u = "*") then "*" else escape (Path u).

(** [time.Parse(time.RFC3339, _)] on the strict form
    [YYYY-MM-DDThh:mm:ss] followed by [Z] or [+hh:mm] or [-hh:mm]. *)
Definition digit (c : ascii) : option Z :=
  if is_digit c then Some (byte_val c - byte_val "0") else None.
Fixpoint number (n : nat) (acc : Z) (s : string) : option (Z * string) :=
  match n, s with
  | O, _ => Some (acc, s)
  | S n', String c s' => d ← digit c; number n' (10 * acc + d) s'
  | S _, EmptyString => None
  end.
Definition expect (c : ascii) (s : string) : option string :=
  match s with
  | String c' s' => if decide (c' = c) then Some s' else None
  | EmptyString => None
  end.
Definition is_leap (y : Z) : bool :=
  (y mod 4 =? 0) && (negb (y mod 100 =? 0) || (y mod 400 =? 0)).
Definition days_in (y m : Z) : Z :=
  if m =? 2 then (if is_leap y then 29 else 28)
  else if bool_decide (m ∈ [4; 6; 9; 11]) then 30 else 31.
(** Days from 1970-01-01 to the given day of the proleptic Gregorian
    calendar. *)
Definition days_from_civil (y m d : Z) : Z :=
  let y := if m <=? 2 then y - 1 else y in
  let era := y / 400 in
  let yoe := y - era * 400 in
  let mp := (m + 9) mod 12 in
  let doy := (153 * mp + 2) / 5 + d - 1 in
  let doe := yoe * 365 + yoe / 4 - yoe / 100 + doy in
  era * 146097 + doe - 719468.
Definition zone (s : string) : option Z :=
  match s with
  | String "Z" EmptyString => Some 0
  | String sign s =>
      '(hh, s) ← number 2 0 s; s ← expect ":" s; '(mm, s) ← number 2 0 s;
      if decide (s = "") then
        if decide (sign = "+"%char) then Some (hh * 3600 + mm * 60)
        else if decide (sign = "-"%char) then Some (- (hh * 3600 + mm * 60))
        else None
      else None
  | EmptyString => None
  end.
Definition strict_Parse_RFC3339 (s : string) : option Instant :=
  '(Y, s) ← number 4 0 s; s ← expect "-" s;
  '(M, s) ← number 2 0 s; s ← expect "-" s;
  '(D, s) ← number 2 0 s; s ← expect "T" s;
  '(h, s) ← number 2 0 s; s ← expect ":" s;
  '(m, s) ← number 2 0 s; s ← expect ":" s;
  '(sec, s) ← number 2 0 s;
  off ← zone s;
  if (1 <=? M) && (M <=? 12) && (1 <=? D) && (D <=? days_in Y M)
     && (h <? 24) && (m <? 60) && (sec <? 60)
  then Some ((days_from_civil Y M D * 86400 + h * 3600 + m * 60 + sec - off)
             * 1000000000)
  else None.

(** [time.Since(t)] when the clock reads [now]: [now.Sub(t)], which is the
    difference when a [Duration] can hold it and the largest or smallest
    [Duration] when it cannot. *)
Definition time_Since (now t : Instant) : Duration :=
  let d := now - t in
  if d <? minInt64 then minInt64 else if maxInt64 <? d then maxInt64 else d.

(** How [encoding/json] writes a string of ASCII bytes: between quotes,
    with the quote and the backslash escaped, line feed, carriage return
    and tab by their letters, and the other control bytes and [<], [>],
    [&] as [\u00XX]. *)
Definition lowerhex (d : Z) : ascii :=
  if d <? 10 then byte_of (byte_val "0" + d) else byte_of (byte_val "a" + d - 10).
Definition json_escape (c : ascii) : string :=
  if bool_decide (c ∈ ["034"; "\"]%char) then String "\" (String c "")
  else if decide (c = LF) then "\n"
  else if decide (c = "013"%char) then "\r"
  else if decide (c = "009"%char) then "\t"
  else if (byte_val c <? 32) || bool_decide (c ∈ ["<"; ">"; "&"]%char) then
    "\u00" +:+ String (lowerhex (Z.shiftr (byte_val c) 4))
                (String (lowerhex (Z.land (byte_val c) 15)) "")
  else String c "".
Fixpoint json_escapes (s : string) : string :=
  match s with
  | EmptyString => EmptyString
  | String c s' => json_escape c +:+ json_escapes s'
  end.
Definition ascii_json_string (s : string) : string :=
  String "034" (json_escapes s) +:+ String "034" "".

(** The runtime of a process whose clock reads [now]. *)
Definition ascii_runtime (now : Instant) : GoRuntime := {|
  strings_ToLower := ascii_ToLower;
  strings_TrimSpace := ascii_TrimSpace;
  EscapedPath := plain_EscapedPath;
  time_Parse_RFC3339 := strict_Parse_RFC3339;
  timeSince := time_Since now;
  json_string := ascii_json_string
|}.

(** ** SHA-512 (FIPS 180-4), on lists of byte values *)

Module SHA512.

Definition round_constants : list Z :=
  [0x428a2f98d728ae22; 0x7137449123ef65cd; 0xb5c0fbcfec4d3b2f;
    0xe9b5dba58189dbbc; 0x3956c25bf348b538; 0x59f111f1b605d019;
    0x923f82a4af194f9b; 0xab1c5ed5da6d8118; 0xd807aa98a3030242;
    0x12835b0145706fbe; 0x243185be4ee4b28c; 0x550c7dc3d5ffb4e2;
    0x72be5d74f27b896f; 0x80deb1fe3b1696b1; 0x9bdc06a725c71235;
    0xc19bf174cf692694; 0xe49b69c19ef14ad2; 0xefbe4786384f25e3;
    0x0fc19dc68b8cd5b5; 0x240ca1cc77ac9c65; 0x2de92c6f592b0275;
    0x4a7484aa6ea6e483; 0x5cb0a9dcbd41fbd4; 0x76f988da831153b5;
    0x983e5152ee66dfab; 0xa831c66d2db43210; 0xb00327c898fb213f;
    0xbf597fc7beef0ee4; 0xc6e00bf33da88fc2; 0xd5a79147930aa725;
    0x06ca6351e003826f; 0x142929670a0e6e70; 0x27b70a8546d22ffc;
    0x2e1b21385c26c926; 0x4d2c6dfc5ac42aed; 0x53380d139d95b3df;
    0x650a73548baf63de; 0x766a0abb3c77b2a8; 0x81c2c92e47edaee6;
    0x92722c851482353b; 0xa2bfe8a14cf10364; 0xa81a664bbc423001;
    0xc24b8b70d0f89791; 0xc76c51a30654be30; 0xd192e819d6ef5218;
    0xd69906245565a910; 0xf40e35855771202a; 0x106aa07032bbd1b8;
    0x19a4c116b8d2d0c8; 0x1e376c085141ab53; 0x2748774cdf8eeb99;
    0x34b0bcb5e19b48a8; 0x391c0cb3c5c95a63; 0x4ed8aa4ae3418acb;
    0x5b9cca4f7763e373; 0x682e6ff3d6b2b8a3; 0x748f82ee5defb2fc;
    0x78a5636f43172f60; 0x84c87814a1f0ab72; 0x8cc702081a6439ec;
    0x90befffa23631e28; 0xa4506cebde82bde9; 0xbef9a3f7b2c67915;
    0xc67178f2e372532b; 0xca273eceea26619c; 0xd186b8c721c0c207;
    0xeada7dd6cde0eb1e; 0xf57d4f7fee6ed178; 0x06f067aa72176fba;
    0x0a637dc5a2c898a6; 0x113f9804bef90dae; 0x1b710b35131c471b;
    0x28db77f523047d84; 0x32caab7b40c72493; 0x3c9ebe0a15c9bebc;
    0x431d67c49c100d4c; 0x4cc5d4becb3e42b6; 0x597f299cfc657e2a;
    0x5fcb6fab3ad6faec; 0x6c44198c4a475817].
Definition initial_hash : list Z :=
  [0x6a09e667f3bcc908; 0xbb67ae8584caa73b; 0x3c6ef372fe94f82b;
    0xa54ff53a5f1d36f1; 0x510e527fade682d1; 0x9b05688c2b3e6c1f;
    0x1f83d9abfb41bd6b; 0x5be0cd19137e2179].

Definition add64 (x y : Z) : Z := (x + y) mod 2 ^ 64.
Definition rotr (n x : Z) : Z :=
  Z.lor (Z.shiftr x n) (Z.shiftl x (64 - n) mod 2 ^ 64).
Definition not64 (x : Z) : Z := 2 ^ 64 - 1 - x.

Definition Sigma0 x := Z.lxor (Z.lxor (rotr 28 x) (rotr 34 x)) (rotr 39 x).
Definition Sigma1 x := Z.lxor (Z.lxor (rotr 14 x) (rotr 18 x)) (rotr 41 x).
Definition sigma0 x := Z.lxor (Z.lxor (rotr 1 x) (rotr 8 x)) (Z.shiftr x 7).
Definition sigma1 x := Z.lxor (Z.lxor (rotr 19 x) (rotr 61 x)) (Z.shiftr x 6).
Definition Ch x y z := Z.lxor (Z.land x y) (Z.land (not64 x) z).
Definition Maj x y z := Z.lxor (Z.lxor (Z.land x y) (Z.land x z)) (Z.land y z).

Definition be_val (bs : list Z) : Z := fold_left (fun acc b => acc * 256 + b) bs 0.
Fixpoint be_bytes (n : nat) (x : Z) : list Z :=
  match n with
  | O => []
  | S n' => be_bytes n' (x / 256) ++ [x mod 256]
  end.

Fixpoint chunks {A} (fuel k : nat) (l : list A) : list (list A) :=
  match fuel with
  | O => []
  | S fuel' =>
      match l with
      | [] => []
      | _ => take k l :: chunks fuel' k (drop k l)
      end
  end.

(** The message schedule, the most recent word first. *)
Fixpoint schedule (n : nat) (w : list Z) : list Z :=
  match n with
  | O => w
  | S n' =>
      let x := add64 (add64 (sigma1 (nth 1 w 0)) (nth 6 w 0))
                     (add64 (sigma0 (nth 14 w 0)) (nth 15 w 0)) in
      schedule n' (x :: w)
  end.

Definition round (st : list Z) (kw : Z * Z) : list Z :=
  match st with
  | [a; b; c; d; e; f; g; h] =>
      let t1 := add64 (add64 (add64 h (Sigma1 e)) (add64 (Ch e f g) (fst kw))) (snd kw) in
      let t2 := add64 (Sigma0 a) (Maj a b c) in
      [add64 t1 t2; a; b; c; add64 d t1; e; f; g]
  | _ => st
  end.

Definition compress (h : list Z) (block : list Z) : list Z :=
  let w16 := map be_val (chunks 16 8 block) in
  let w := rev (schedule 64 (rev w16)) in
  zip_with add64 h (fold_left round (zip round_constants w) h).

Definition pad (msg : list Z) : list Z :=
  let l := Z.of_nat (length msg) in
  msg ++ [128] ++ repeat 0 (Z.to_nat ((- (l + 17)) mod 128)) ++ be_bytes 16 (8 * l).

Definition sum (msg : list Z) : list Z :=
  let m := pad msg in
  let h := fold_left compress (chunks (length m) 128 m) initial_hash in
  concat (map (be_bytes 8) h).

End SHA512.

(** ** The verification equation of Ed25519

    [ed25519.Verify] of golang.org/x/crypto after its size checks, with the
    field and group arithmetic of its package edwards25519 done on
    integers modulo [2^255 - 19]. *)

Module Edwards25519.

Local Abbreviation bz := BigZ.of_Z.

Definition le_val (bs : list Z) : Z := fold_right (fun b acc => b + 256 * acc) 0 bs.
Fixpoint le_bytes (n : nat) (x : Z) : list Z :=
  match n with
  | O => []
  | S n' => (x mod 256) :: le_bytes n' (x / 256)
  end.

(** The prime of the field and the order of the base point. *)
Definition prime : Z := 2 ^ 255 - 19.
Definition order : Z := 2 ^ 252 + 27742317777372353535851937790883648493.
Definition prime_big : bigZ := Eval vm_compute in bz prime.

(** Field elements are kept between 0 and the prime. *)
Definition FeAdd (a b : bigZ) : bigZ := BigZ.modulo (BigZ.add a b) prime_big.
Definition FeSub (a b : bigZ) : bigZ := BigZ.modulo (BigZ.sub a b) prime_big.
Definition FeMul (a b : bigZ) : bigZ := BigZ.modulo (BigZ.mul a b) prime_big.
Definition FeSquare (a : bigZ) : bigZ := FeMul a a.
Definition FeNeg (a : bigZ) : bigZ := FeSub (bz 0) a.
Definition FeIsNegative (a : bigZ) : Z := BigZ.to_Z a mod 2.
Definition FeIsNonZero (a : bigZ) : bool := negb (BigZ.eqb a (bz 0)).

Fixpoint pow_pos (x : bigZ) (e : positive) : bigZ :=
  match e with
  | xH => x
  | xO e' => FeSquare (pow_pos x e')
  | xI e' => FeMul (FeSquare (pow_pos x e')) x
  end.
Definition FePow (x : bigZ) (e : Z) : bigZ :=
  match e with
  | Zpos e' => pow_pos x e'
  | _ => bz 1
  end.
Definition FeInvert (x : bigZ) : bigZ := FePow x (prime - 2).
Definition fePow22523 (x : bigZ) : bigZ := FePow x ((prime - 5) / 8).

(** The curve constant [-121665/121666], its double, and a square root
    of [-1]. *)
Definition curve_d : bigZ := Eval vm_compute in
  FeMul (FeNeg (bz 121665)) (FeInvert (bz 121666)).
Definition curve_d2 : bigZ := Eval vm_compute in FeAdd curve_d curve_d.
Definition SqrtM1 : bigZ := Eval vm_compute in FePow (bz 2) ((prime - 1) / 4).

(** [ExtendedGroupElement]: the point [(X/Z, Y/Z)], with [T = XY/Z]. *)
Record ExtendedGroupElement := mkPoint {
  geX : bigZ;
  geY : bigZ;
  geZ : bigZ;
  geT : bigZ
}.

(** The sum of two points, by the unified formulas. *)
Definition GeAdd (P Q : ExtendedGroupElement) : ExtendedGroupElement :=
  let A := FeMul (FeSub (geY P) (geX P)) (FeSub (geY Q) (geX Q)) in
  let B := FeMul (FeAdd (geY P) (geX P)) (FeAdd (geY Q) (geX Q)) in
  let C := FeMul (FeMul (geT P) curve_d2) (geT Q) in
  let D := FeMul (FeAdd (geZ P) (geZ P)) (geZ Q) in
  let E := FeSub B A in
  let F := FeSub D C in
  let G := FeAdd D C in
  let H := FeAdd B A in
  mkPoint (FeMul E F) (FeMul G H) (FeMul F G) (FeMul E H).

Definition GeZero : ExtendedGroupElement := mkPoint (bz 0) (bz 1) (bz 1) (bz 0).

Fixpoint mul_pos (k : positive) (P : ExtendedGroupElement) : ExtendedGroupElement :=
  match k with
  | xH => P
  | xO k' => let Q := mul_pos k' P in GeAdd Q Q
  | xI k' => let Q := mul_pos k' P in GeAdd (GeAdd Q Q) P
  end.
Definition GeScalarMult (k : Z) (P : ExtendedGroupElement) : ExtendedGroupElement :=
  match k with
  | Zpos k' => mul_pos k' P
  | _ => GeZero
  end.

(** [ExtendedGroupElement.FromBytes]: the point with the given [y] (the
    low 255 bits) and the sign of [x] in the top bit; [None] when [y] is
    not the ordinate of a point of the curve. *)
Definition FromBytes (s : list Z) : option ExtendedGroupElement :=
  let y := BigZ.modulo (bz (le_val s mod 2 ^ 255)) prime_big in
  let u := FeSquare y in
  let v := FeMul u curve_d in
  let u := FeSub u (bz 1) in
  let v := FeAdd v (bz 1) in
  let v3 := FeMul (FeSquare v) v in
  let x := FeMul (FeMul (FeSquare v3) v) u in
  let x := fePow22523 x in
  let x := FeMul (FeMul x v3) u in
  let vxx := FeMul (FeSquare x) v in
  let finish x :=
    let x :=
      if negb (FeIsNegative x =? Z.shiftr (nth 31 s 0) 7) then FeNeg x else x in
    Some (mkPoint x y (bz 1) (FeMul x y)) in
  if FeIsNonZero (FeSub vxx u) then
    if FeIsNonZero (FeAdd vxx u) then None
    else finish (FeMul x SqrtM1)
  else finish x.

(** [ToBytes]: [y] in 32 little-endian bytes, the parity of [x] on top. *)
Definition ToBytes (P : ExtendedGroupElement) : list Z :=
  let recip := FeInvert (geZ P) in
  let x := FeMul (geX P) recip in
  let y := FeMul (geY P) recip in
  le_bytes 32 (BigZ.to_Z y + 2 ^ 255 * FeIsNegative x).

Definition GeNeg (P : ExtendedGroupElement) : ExtendedGroupElement :=
  mkPoint (FeNeg (geX P)) (geY P) (geZ P) (FeNeg (geT P)).

(** The base point, of ordinate 4/5 and even abscissa. *)
Definition base : ExtendedGroupElement := Eval vm_compute in
  default GeZero
    (FromBytes (le_bytes 32 (BigZ.to_Z (FeMul (bz 4) (FeInvert (bz 5)))))).

(** The end of [ed25519.Verify]: decode the key as [A] and negate it,
    reduce [h = SHA-512(R, A, M)] modulo the order, require [s] below the
    order, and compare the encoding of [h(-A) + sB] with [R]. *)
Definition verify (publicKey message sig : list Z) : bool :=
  match FromBytes publicKey with
  | None => false
  | Some A =>
      let A := GeNeg A in
      let digest := SHA512.sum (take 32 sig ++ publicKey ++ message) in
      let hReduced := le_val digest mod order in
      let s := le_val (drop 32 sig) in
      if negb (s <? order) then false else
      let R := GeAdd (GeScalarMult hReduced A) (GeScalarMult s base) in
      bool_decide (ToBytes R = take 32 sig)
  end.

End Edwards25519.

(** ** Calls that leave the package, and panics

    A run of package code ends by returning or by panicking, and on the way
    calls [ed25519.Verify], the methods of the [http.ResponseWriter] it was
    given, [Close] on the request body and the next handler.  These calls are
    recorded in order, so that "is not called" and "writes once" are
    statements about the record. *)

Inductive event :=
| Ed25519Verify (publicKey message sig : string)
| SetHeader (key value : string)      (* rw.Header().Set(key, value) *)
| WriteHeader (statusCode : Z)        (* rw.WriteHeader(statusCode) *)
| ResponseWrite (b : string)          (* rw.Write(b) *)
| BodyClose                           (* req.Body.Close() *)
| Next (req : Request).               (* next(rw, req) *)

Inductive outcome (A : Type) :=
| Returns (a : A)
| Panics (text : string).
Arguments Returns {A} a.
Arguments Panics {A} text.

Record run (A : Type) := mkRun { result : outcome A; trace : list event }.
Arguments mkRun {A} result trace.
Arguments result {A} r.
Arguments trace {A} r.

Definition panic {A} (text : string) : run A := mkRun (Panics text) [].
Definition emit (e : event) : run unit := mkRun (Returns tt) [e].

Global Instance run_ret : MRet run := fun A a => mkRun (Returns a) [].
Global Instance run_bind : MBind run := fun A B f m =>
  match result m with
  | Returns a => mkRun (result (f a)) (trace m ++ trace (f a))
  | Panics text => mkRun (Panics text) (trace m)
  end.

(** [defer d]: [d] runs when the function ends, by return or by panic. *)
Definition defer {A} (d : run unit) (m : run A) : run A :=
  match result d with
  | Returns _ => mkRun (result m) (trace m ++ trace d)
  | Panics text => mkRun (Panics text) (trace m ++ trace d)
  end.

(** The calls made on the response writer. *)
Definition is_response_event (e : event) : bool :=
  match e with
  | SetHeader _ _ | WriteHeader _ | ResponseWrite _ => true
  | _ => false
  end.
Definition response_events (t : list event) : list event :=
  filter (fun e => is_response_event e = true) t.
Definition is_next_event (e : event) : bool :=
  match e with Next _ => true | _ => false end.
Definition next_events (t : list event) : list event :=
  filter (fun e => is_next_event e = true) t.
Definition is_verify_event (e : event) : bool :=
  match e with Ed25519Verify _ _ _ => true | _ => false end.
Definition verify_events (t : list event) : list event :=
  filter (fun e => is_verify_event e = true) t.

(** ** package strconv *)

(** [strconv.Itoa] of a length. *)
Definition strconv_Itoa (n : nat) : string :=
  DecimalString.NilZero.string_of_uint (Nat.to_uint n).

(** ** package encoding/base64: [RawURLEncoding.DecodeString] *)

(** [decodeMap] of the URL alphabet [A-Z a-z 0-9 - _]; [None] is 0xff. *)
Definition decodeMap (c : ascii) : option Z :=
  if is_upper c then Some (byte_val c - byte_val "A")
  else if is_lower c then Some (byte_val c - byte_val "a" + 26)
  else if is_digit c then Some (byte_val c - byte_val "0" + 52)
  else if decide (c = "-"%char) then Some 62
  else if decide (c = "_"%char) then Some 63
  else None.

(** The input as 6-bit values.  Carriage returns and line feeds are
    skipped; any other byte outside the alphabet is corrupt input (there
    is no padding character in the raw encodings). *)
Fixpoint sextets (src : string) : option (list Z) :=
  match src with
  | EmptyString => Some []
  | String c src' =>
      match decodeMap c with
      | Some d => cons d <$> sextets src'
      | None =>
          if bool_decide (c = LF) || bool_decide (c = "013"%char)
          then sextets src' else None
      end
  end.

(** [val := dbuf[0]<<18 | dbuf[1]<<12 | dbuf[2]<<6 | dbuf[3]] *)
Definition quantum_val (d0 d1 d2 d3 : Z) : Z :=
  Z.lor (Z.lor (Z.lor (Z.shiftl d0 18) (Z.shiftl d1 12)) (Z.shiftl d2 6)) d3.

(** [decodeQuantum], quantum after quantum: four values give three
    bytes; at the end of the input three values give two bytes, two give
    one, and a single value is corrupt input. *)
Fixpoint decodeQuanta (ds : list Z) : option string :=
  match ds with
  | [] => Some ""
  | [_] => None
  | [d0; d1] =>
      let val := quantum_val d0 d1 0 0 in
      Some (String (byte_of (Z.shiftr val 16)) "")
  | [d0; d1; d2] =>
      let val := quantum_val d0 d1 d2 0 in
      Some (String (byte_of (Z.shiftr val 16))
           (String (byte_of (Z.shiftr val 8)) ""))
  | d0 :: d1 :: d2 :: d3 :: rest =>
      let val := quantum_val d0 d1 d2 d3 in
      String (byte_of (Z.shiftr val 16))
        ∘ String (byte_of (Z.shiftr val 8))
        ∘ String (byte_of (Z.shiftr val 0)) <$> decodeQuanta rest
  end.

Definition RawURLEncoding_DecodeString (s : string) : option string :=
  sextets s ≫= decodeQuanta.

(** ** package github.com/manifoldco/go-base64 *)

(** [base64.CorruptInputError]; the offset it carries is not modelled. *)
Definition CorruptInputError : error := error_other "illegal base64 data".

(** [base64.NewFromString]: [RawURLEncoding.DecodeString], the value on
    the left and the decoder's error on the right. *)
Definition base64_NewFromString (encoded : string) : string + error :=
  match RawURLEncoding_DecodeString encoded with
  | Some out => inl out
  | None => inr CorruptInputError
  end.

(** ** package golang.org/x/crypto/ed25519 *)

Definition PublicKeySize : nat := 32.
Definition SignatureSize : nat := 64.

(** What [ed25519.Verify] computes once the sizes are right: whether the
    signature satisfies the verification equation for the key and the
    message. *)
Class Ed25519 := ed25519_equation : string -> string -> string -> bool.

Section Package.
Context `{GoRuntime} `{Ed25519}.

(** [ed25519.Verify(publicKey, message, sig)].  It panics on a public key
    of the wrong size, and rejects a signature of the wrong size or with
    one of the three top bits of its last byte set. *)
Definition ed25519_Verify (publicKey message sig : string) : run bool :=
  emit (Ed25519Verify publicKey message sig);;
  let l := String.length publicKey in
  if decide (l ≠ PublicKeySize) then
    panic ("ed25519: bad public key length: " +:+ strconv_Itoa l)
  else if bool_decide (String.length sig ≠ SignatureSize)
          || negb (Z.land (from_option byte_val 0 (String.get 63 sig)) 224 =? 0)
  then mret false
  else mret (ed25519_equation publicKey message sig).

(** ** The package itself *)

(** [ManifoldKey]: Manifold's public master signing key, base64 encoded. *)
Definition ManifoldKey : string := "PtISNzqQmQPBxNlUw3CdxsWczXbIwyExxlkRqZ7E690".

(** [PermittedTimeSkew = 5 * time.Minute], in nanoseconds. *)
Definition time_Minute : Z := 60 * 1000000000.
Definition PermittedTimeSkew : Z := 5 * time_Minute.

(** [errors.New]. *)
Definition errors_New (text : string) : error := error_other text.
Definition ErrInvalidPublicKey : error :=
  errors_New "The provided base64 public key is not valid".

Definition DQUOTE : string := String "034"%char "".

(** [json.Marshal(e)] for an [*Error]: [Code] is tagged [json:"-"], so the
    object has the one field [message].  Marshalling a struct of an int
    and a string does not fail. *)
Definition json_Marshal (e : Error) : string + error :=
  inl ("{" +:+ DQUOTE +:+ "message" +:+ DQUOTE +:+ ":" +:+ json_string (Message e) +:+ "}").

(** [func (e *Error) Respond(rw http.ResponseWriter)] *)
Definition Respond (e : Error) : run unit :=
  match json_Marshal e with
  | inr _ => panic "Error while marshaling error response!"
  | inl b =>
      emit (SetHeader "Content-Type" "application/json");;
      emit (SetHeader "Content-Length" (strconv_Itoa (String.length b)));;
      emit (WriteHeader (Code e));;
      emit (ResponseWrite b)
  end.

(** [type Signature struct]; a [base64.Value] is a byte slice. *)
Record Signature := mkSignature {
  Value : string;
  PublicKey : string;
  Endorsement : string
}.

(** [func (s *Signature) Validate(masterPubKey ed25519.PublicKey, b []byte) error] *)
Definition Validate (s : Signature) (masterPubKey : string) (b : string)
  : run (option error) :=
  ok ← ed25519_Verify masterPubKey (PublicKey s) (Endorsement s);
  if negb ok then
    mret (Some (error_Error (mkError 401 "Request Public Key was not endorsed by Manifold")))
  else
  let livePubKey := PublicKey s in
  ok ← ed25519_Verify livePubKey b (Value s);
  if negb ok then
    mret (Some (error_Error (mkError 401 "Request was not signed by included Public Key")))
  else
  mret None.

(** [func ParseSignature(value string)], returning a [*Signature] or an error *)
Definition ParseSignature (value : string) : Signature + error :=
  let sigerr := error_Error (mkError 400 "Could not parse Signature chain") in
  let parts := strings_Split value " " in
  if decide (length parts ≠ 3%nat) then inr sigerr else
  match base64_NewFromString (parts !!! 0%nat) with
  | inr err => inr err
  | inl v =>
  match base64_NewFromString (parts !!! 1%nat) with
  | inr err => inr err
  | inl k =>
  match base64_NewFromString (parts !!! 2%nat) with
  | inr err => inr err
  | inl e => inl (mkSignature v k e)
  end end end.

(** [type Verifier struct] *)
Record Verifier := mkVerifier { pk : string }.

(** [strings.Replace(s, old, new, -1)] for [old] and [new] of one byte,
    and [strings.TrimRight(s, cutset)] for a cutset of one byte. *)
Definition strings_Replace (s : string) (old new : ascii) : string :=
  string_map (fun c => if decide (c = old) then new else c) s.
Fixpoint strings_TrimRight (s : string) (cut : ascii) : string :=
  match s with
  | EmptyString => EmptyString
  | String c s' =>
      match strings_TrimRight s' cut with
      | EmptyString => if decide (c = cut) then EmptyString else String c EmptyString
      | t => String c t
      end
  end.

(** [func NewVerifier(publicKey string)], returning a [*Verifier] or an error *)
Definition NewVerifier (publicKey : string) : Verifier + error :=
  let spk := strings_Replace publicKey "+" "-" in
  let spk := strings_Replace spk "/" "_" in
  let spk := strings_TrimRight spk "=" in
  match base64_NewFromString spk with
  | inr _ => inr ErrInvalidPublicKey
  | inl pkv =>
      if decide (String.length pkv ≠ PublicKeySize) then inr ErrInvalidPublicKey
      else inl (mkVerifier (String.substring 0 PublicKeySize pkv))
  end.

(** Two's complement negation of an int64. *)
Definition wrap64 (z : Z) : Z := (z + 2 ^ 63) mod 2 ^ 64 - 2 ^ 63.
Definition neg64 (d : Z) : Z := wrap64 (- d).

(** [func (v *Verifier) Verify(req *http.Request, body io.Reader) error] *)
Definition Verify (v : Verifier) (req : Request) (body : Reader)
  : run (option error) :=
  let sigHeader := Header_Get (Request_Header req) "X-Signature" in
  if decide (sigHeader = "") then
    mret (Some (error_Error (mkError 400 "Missing X-Signature header")))
  else
  match ParseSignature sigHeader with
  | inr _ =>
    mret (Some (error_Error (mkError 400 "Could not parse X-Signature header")))
  | inl sig =>
  let headerList := Header_Get (Request_Header req) "X-Signed-Headers" in
  if decide (headerList = "") then
    mret (Some (error_Error (mkError 400 "Missing X-Signed-Headers header")))
  else
  match time_Parse_RFC3339 (Header_Get (Request_Header req) "Date") with
  | None =>
    mret (Some (error_Error (mkError 400 "Unable to read request date")))
  | Some rt =>
  let delta := timeSince rt in
  let delta := if delta <? 0 then neg64 delta else delta in
  if delta >? PermittedTimeSkew then
    mret (Some (error_Error (mkError 400 "Request time skew is too great")))
  else
  let '(b, err) := Canonize req body in
  match err with
  | Some _ =>
    mret (Some (error_Error (mkError 400 "Unable to read request body")))
  | None =>
  Validate sig (pk v) b
  end end end.

(** [b.ReadFrom(r)] on an empty buffer: the bytes read, the error unless
    the reading ended at end of file, and the reader as the reading leaves
    it. *)
Definition Buffer_ReadFrom (r : Reader) : string * option error * Reader :=
  (rd_data r, rd_err r, drained r).

(** [req.Body = body] *)
Definition set_Body (req : Request) (body : Reader) : Request :=
  mkRequest (Method req) (Request_URL req) (Request_Header req) (Host req) body.

(** The end of the middleware, from the error of [Verify] on: an [*Error]
    is answered as it is, an error of another type by a 401, and without
    error the next handler is called with the request. *)
Definition Negroni_reply (err : option error) (req : Request) : run unit :=
  match err with
  | Some (error_Error e) => Respond e
  | Some _ =>
      let e := mkError 401 "Could not validate authenticity of the request" in
      Respond e
  | None => emit (Next req)
  end.

(** [func (v *Verifier) Negroni() Middleware]: the middleware, applied to
    a request.  The response writer and the next handler appear through
    the calls made on them.  The reader [req.Body] is read where it is: from
    then on the request holds what is left of it, until [req.Body] is
    assigned the copy. *)
Definition Negroni (v : Verifier) (req : Request) : run unit :=
  let '(b, err, rest) := Buffer_ReadFrom (Body req) in
  let req :=
    mkRequest (Method req) (Request_URL req) (Request_Header req) (Host req) rest in
  match err with
  | Some _ =>
      let e := mkError 400 "Could not ready body from request" in
      Respond e
  | None =>
  defer (emit BodyClose) (
    let req := set_Body req (bytes_NewReader b) in
    err ← Verify v req (bytes_NewReader b);
    Negroni_reply err req)
  end.

(** [func (v *Verifier) Wrap(handler http.Handler) http.Handler]: the
    handler is the [next] of the middleware. *)
Definition Wrap (v : Verifier) (req : Request) : run unit := Negroni v req.

End Package.

(** The package with the verification equation of x/crypto. *)
Definition bytes_of_string (s : string) : list Z :=
  map byte_val (list_ascii_of_string s).

Definition x_crypto : Ed25519 := fun publicKey message sig =>
  Edwards25519.verify (bytes_of_string publicKey) (bytes_of_string message)
    (bytes_of_string sig).

(** ** package encoding/base64: the encoder

    Used to say which texts [NewVerifier] accepts. *)

Definition encodeStd : string :=
  "ABCDEFGHIJKLMNOPQRSTUVWXYZabcdefghijklmnopqrstuvwxyz0123456789+/".
Definition encodeURL : string :=
  "ABCDEFGHIJKLMNOPQRSTUVWXYZabcdefghijklmnopqrstuvwxyz0123456789-_".

(** An [Encoding]: its alphabet, and its padding character unless it is
    a raw encoding ([NoPadding]). *)
Record Encoding := mkEncoding { alphabet : string; padChar : option ascii }.
Definition StdEncoding : Encoding := mkEncoding encodeStd (Some "="%char).
Definition URLEncoding : Encoding := mkEncoding encodeURL (Some "="%char).
Definition RawStdEncoding : Encoding := mkEncoding encodeStd None.
Definition RawURLEncoding : Encoding := mkEncoding encodeURL None.
Definition base64_encodings : list Encoding :=
  [StdEncoding; RawStdEncoding; URLEncoding; RawURLEncoding].

(** [enc.encode[v]] *)
Definition encode_byte (enc : Encoding) (v : Z) : ascii :=
  default "000"%char (String.get (Z.to_nat v) (alphabet enc)).

Definition padding (enc : Encoding) (n : nat) : string :=
  match padChar enc with
  | Some c => string_of_list_ascii (replicate n c)
  | None => ""
  end.

(** [Encoding.EncodeToString]: three bytes give four characters; one or
    two bytes left at the end give two or three, and padding. *)
Fixpoint EncodeToString (enc : Encoding) (src : string) : string :=
  match src with
  | EmptyString => ""
  | String c0 EmptyString =>
      let val := Z.shiftl (byte_val c0) 16 in
      String (encode_byte enc (Z.land (Z.shiftr val 18) 63))
        (String (encode_byte enc (Z.land (Z.shiftr val 12) 63)) (padding enc 2))
  | String c0 (String c1 EmptyString) =>
      let val := Z.lor (Z.shiftl (byte_val c0) 16) (Z.shiftl (byte_val c1) 8) in
      String (encode_byte enc (Z.land (Z.shiftr val 18) 63))
        (String (encode_byte enc (Z.land (Z.shiftr val 12) 63))
           (String (encode_byte enc (Z.land (Z.shiftr val 6) 63)) (padding enc 1)))
  | String c0 (String c1 (String c2 rest)) =>
      let val := Z.lor (Z.lor (Z.shiftl (byte_val c0) 16) (Z.shiftl (byte_val c1) 8))
                       (byte_val c2) in
      String (encode_byte enc (Z.land (Z.shiftr val 18) 63))
        (String (encode_byte enc (Z.land (Z.shiftr val 12) 63))
           (String (encode_byte enc (Z.land (Z.shiftr val 6) 63))
              (String (encode_byte enc (Z.land val 63))
                 (EncodeToString enc rest))))
  end.

(** What the two [strings.Replace] of [NewVerifier] do to a byte. *)
Definition remap (c : ascii) : ascii :=
  let c := if decide (c = "+"%char) then "-"%char else c in
  if decide (c = "/"%char) then "_"%char else c.

(** ** The canonical form in the words of the specification

    Section 4.1 describes the canonical form piece by piece; these are the
    pieces, to be compared with what [Canonize] writes. *)

Fixpoint concat_strings (l : list string) : string :=
  match l with
  | [] => ""
  | s :: l' => s +:+ concat_strings l'
  end.

(** Names are compared without regard to case, as ASCII. *)
Definition EqualFold (s t : string) : Prop := ascii_ToLower s = ascii_ToLower t.
Global Instance EqualFold_dec s t : Decision (EqualFold s t) :=
  decide (ascii_ToLower s = ascii_ToLower t).

(** A header name is a token. *)
Definition is_token (s : string) : Prop := string_forallb validHeaderFieldByte s = true.

Section Words.
Context `{GoRuntime}.

(** Steps 1 and 2: the method in lower case ([GET] for none), a space, the
    escaped path and, when there is a query, a question mark and the
    segments joined by ampersands. *)
Definition request_line (req : Request) (segments : list string) : string :=
  strings_ToLower (if decide (Method req = "") then "GET" else Method req)
  +:+ " " +:+ EscapedPath (Request_URL req)
  +:+ (if decide (RawQuery (Request_URL req) = "") then ""
       else "?" +:+ strings_Join segments "&").

(** Step 4: the names listed by [X-Signed-Headers], then the name of that
    header itself. *)
Definition signed_header_names (req : Request) : list string :=
  strings_Split (Header_Get (Request_Header req) "X-Signed-Headers") " "
  ++ ["x-signed-headers"].

(** The effective host: the [Host] field, else the host of the URL. *)
Definition effective_host (req : Request) : string :=
  if decide (Host req = "") then URL_Host (Request_URL req) else Host req.

(** Step 5: the occurrences of a header; the effective host for [host]. *)
Definition occurrences (req : Request) (name : string) : list string :=
  if decide (EqualFold name "host") then [effective_host req]
  else Header_index (Request_Header req) (CanonicalHeaderKey name).

(** Step 5 as it is worded: the occurrences found by a match of names
    without regard to case, the values of the entries of the map whose key
    is the name up to case. *)
Definition occurrences_by_name (h : Header) (name : string) : list string :=
  concat (map snd (filter (fun kv => EqualFold kv.1 name) (map_to_list h))).

Definition header_line (req : Request) (name : string) : string :=
  strings_ToLower name +:+ ": "
  +:+ strings_Join (map strings_TrimSpace (occurrences req name)) ", "
  +:+ String LF "".

Definition header_section (req : Request) : string :=
  concat_strings (map (header_line req) (signed_header_names req)).

End Words.

(** ** [Verify] and the middleware in the words of the specification *)

Section Verdicts.
Context `{GoRuntime}.

(** The comparison [Verify] makes of a date [rt] with the clock. *)
Definition skew_too_great (rt : Instant) : bool :=
  let delta := timeSince rt in
  let delta := if delta <? 0 then neg64 delta else delta in
  delta >? PermittedTimeSkew.

(** Returning an [*Error] without having called anything. *)
Definition reject (code : Z) (text : string) : run (option error) :=
  mkRun (Returns (Some (error_Error (mkError code text)))) [].

(** The response for an error: the two headers, the status code, and the
    JSON object with the message. *)
Definition error_body (e : Error) : string :=
  "{" +:+ DQUOTE +:+ "message" +:+ DQUOTE +:+ ":" +:+ json_string (Message e) +:+ "}".
Definition error_response (e : Error) : list event :=
  [SetHeader "Content-Type" "application/json";
   SetHeader "Content-Length" (strconv_Itoa (String.length (error_body e)));
   WriteHeader (Code e);
   ResponseWrite (error_body e)].

End Verdicts.

(** ** Requests to run the package on *)

(** The request of [ExampleCanonize]. *)
Definition example_request : Request :=
  mkRequest "PUT" (mkURL "/v1/resources" "" "foo=bar" "")
    (<["X-Signed-Headers" := ["date"]]> (<["Date" := ["2017-03-05T23:53:08Z"]]> ∅))
    "" (bytes_NewReader "Test body data").
Definition example_canonical : string :=
  "put /v1/resources?foo=bar" +:+ String LF
  ("date: 2017-03-05T23:53:08Z" +:+ String LF
  ("x-signed-headers: date" +:+ String LF
   "Test body data")).

(** The request of [ExampleVerifier_Verify] and [TestWrap], with the
    [X-Signature] given, and the key the tests verify it with. *)
Definition test_body : string :=
  "{" +:+ DQUOTE +:+ "id" +:+ DQUOTE +:+ ":" +:+ DQUOTE
  +:+ "2686c96868emyj61cgt2ma7vdntg4" +:+ DQUOTE +:+ "," +:+ DQUOTE +:+ "plan"
  +:+ DQUOTE +:+ ":" +:+ DQUOTE +:+ "low" +:+ DQUOTE +:+ "," +:+ DQUOTE
  +:+ "product" +:+ DQUOTE +:+ ":" +:+ DQUOTE +:+ "generators" +:+ DQUOTE +:+ ","
  +:+ DQUOTE +:+ "region" +:+ DQUOTE +:+ ":" +:+ DQUOTE +:+ "aws::us-east-1"
  +:+ DQUOTE +:+ "," +:+ DQUOTE +:+ "user_id" +:+ DQUOTE +:+ ":" +:+ DQUOTE
  +:+ "200e7aeg2kf2d6nud8jran3zxnz5j" +:+ DQUOTE +:+ "}" +:+ String LF "".
Definition newReq (signature : string) : Request :=
  mkRequest "PUT"
    (mkURL "/v1/resources/2686c96868emyj61cgt2ma7vdntg4" "" "" "127.0.0.1:4567")
    (<["Date" := ["2017-03-05T23:53:08Z"]]>
    (<["Content-Length" := ["143"]]>
    (<["Content-Type" := ["application/json"]]>
    (<["X-Signed-Headers" := ["host date content-type content-length"]]>
    (<["X-Signature" := [signature]]> ∅)))))
    "127.0.0.1:4567" (bytes_NewReader test_body).
Definition good_signature : string :=
  "Nb9iJZVDFrcf8-dw7AsuSCPtdoxoAr61YVWQe-5b9z_YiuQW73wR7RRsDBPnrBMtXIg_h8yKWsr-ZNRgYbM7CA FzNbTkRjAGjkpwHUbAhjvLsIlAlL_M6EUh5E9OVEwXs qGR6iozBfLUCHbRywz1mHDdGYeqZ0JEcseV4KcwjEVeZtQN54odcJ1_QyZkmHacbQeHEai2-Aw9EF8-Ceh09Cg".
Definition bad_signature : string :=
  "bb9iJZVDFrcf8-dw7AsuSCPtdoxoAr61YVWQe-5b9z_YiuQW73wR7RRsDBPnrBMtXIg_h8yKWsr-ZNRgYbM7CA FzNbTkRjAGjkpwHUbAhjvLsIlAlL_M6EUh5E9OVEwXs qGR6iozBfLUCHbRywz1mHDdGYeqZ0JEcseV4KcwjEVeZtQN54odcJ1_QyZkmHacbQeHEai2-Aw9EF8-Ceh09Cg".
Definition dummyKey : string := "PY7wu3q3-adYr9-0ES6CMRixup9OjO5iL7EFDFpolhk".
Definition test_verifier : Verifier :=
  match NewVerifier dummyKey with
  | inl v => v
  | inr _ => mkVerifier ""
  end.
(** 2017-03-05T23:53:08Z, the date of the test request. *)
Definition test_date : Instant := 1488757988 * 1000000000.
Definition time_Second : Z := 1000000000.

(** A request dated 2400-01-01 and a clock that reads 2026-11-02. *)
Definition far_future_request : Request :=
  mkRequest "GET" (mkURL "/" "" "" "")
    (<["Date" := ["2400-01-01T00:00:00Z"]]>
       (<["X-Signed-Headers" := ["date"]]>
          (<["X-Signature" := ["AA AA AA"]]> ∅)))
    "" (bytes_NewReader "").
Definition clock_2026 : Instant := 1793577600 * 1000000000.

(** The second test vector of RFC 8032, section 7.1: the public key, and
    a chain whose ephemeral key is the one-byte message of the vector
    (0x72) and whose endorsement is the vector's signature of it. *)
Definition rfc8032_key : string := "PUAXw-hDiVqStwqnTRt-vJyYLM8uxJaMwM1V8Sr0Zgw".
Definition short_key_chain : string :=
  "AA cg kqAJqfDUyrhyDoILX2QlQKKye1QWUD-Ps3YiI-vbadoIWsHkPhWZbkWPNhPQ8R2MOHsurrQwKu6wDSkWErsMAA".
Definition short_key_request : Request :=
  mkRequest "GET" (mkURL "/" "" "" "")
    (<["Date" := ["2026-11-02T00:00:00Z"]]>
       (<["X-Signed-Headers" := ["date"]]>
          (<["X-Signature" := [short_key_chain]]> ∅)))
    "" (bytes_NewReader "").

(** ** The rest of the package *)

(** [func (e *Error) Error() string] *)
Definition Error_Error (e : Error) : string := Message e.

(** [func (bv *Value) String() string] of go-base64: the raw URL
    encoding of the bytes. *)
Definition Value_String (bv : string) : string := EncodeToString RawURLEncoding bv.

(** [func (s *Signature) String() string]:
    [fmt.Sprintf("%s %s %s", s.Value, s.PublicKey, s.Endorsement)], for a
    signature whose three fields are set. *)
Definition Signature_String (s : Signature) : string :=
  Value_String (Value s) +:+ " " +:+ Value_String (PublicKey s)
  +:+ " " +:+ Value_String (Endorsement s).

Section Handlers.
Context `{GoRuntime} `{Ed25519}.

(** [type Middleware func(http.ResponseWriter, *http.Request,
    http.HandlerFunc)], applied to its writer and its next handler, and
    [func (m Middleware) ServeHTTP], which calls it. *)
Definition Middleware : Type := Request -> run unit.
Definition Middleware_ServeHTTP (m : Middleware) (r : Request) : run unit := m r.

(** [func (v *Verifier) WrapFunc(handler http.HandlerFunc) http.Handler] *)
Definition WrapFunc (v : Verifier) (req : Request) : run unit := Wrap v req.

End Handlers.

(** ** More words for the properties *)

(** [strings.Count(s, substr)] for a [substr] of one byte. *)
Fixpoint strings_Count (s : string) (c : ascii) : nat :=
  match s with
  | EmptyString => 0
  | String x s' => (if decide (x = c) then 1 else 0) + strings_Count s' c
  end.

(** The request with other headers, and with another raw query. *)
Definition set_Header (req : Request) (h : Header) : Request :=
  mkRequest (Method req) (Request_URL req) h (Host req) (Body req).
Definition set_RawQuery (req : Request) (q : string) : Request :=
  let u := Request_URL req in
  mkRequest (Method req) (mkURL (Path u) (RawPath u) q (URL_Host u))
    (Request_Header req) (Host req) (Body req).

(** The errors that [Verify] builds, those of [Validate] last, and the
    ones the middleware answers with: its own for a body it could not
    read, and those of [Verify] on a body held in memory. *)
Definition Verify_errors : list Error :=
  [mkError 400 "Missing X-Signature header";
   mkError 400 "Could not parse X-Signature header";
   mkError 400 "Missing X-Signed-Headers header";
   mkError 400 "Unable to read request date";
   mkError 400 "Request time skew is too great";
   mkError 400 "Unable to read request body";
   mkError 401 "Request Public Key was not endorsed by Manifold";
   mkError 401 "Request was not signed by included Public Key"].
Definition Negroni_errors : list Error :=
  [mkError 400 "Could not ready body from request";
   mkError 400 "Missing X-Signature header";
   mkError 400 "Could not parse X-Signature header";
   mkError 400 "Missing X-Signed-Headers header";
   mkError 400 "Unable to read request date";
   mkError 400 "Request time skew is too great";
   mkError 401 "Request Public Key was not endorsed by Manifold";
   mkError 401 "Request was not signed by included Public Key"].

(** The chain of the test request. *)
Definition test_signature : Signature :=
  match ParseSignature good_signature with
  | inl sig => sig
  | inr _ => mkSignature "" "" ""
  end.

(** * Properties *)

Local Arguments String.append : simpl nomatch.

(** ** Strings *)

Lemma app_assoc_s (a b c : string) : (a +:+ b) +:+ c = a +:+ (b +:+ c).
Proof. induction a as [|x a IH]; [done|]. cbn. by rewrite IH. Qed.

Lemma app_nil_r_s (a : string) : a +:+ "" = a.
Proof. induction a as [|x a IH]; [done|]. cbn. by rewrite IH. Qed.

Lemma concat_strings_app l1 l2 :
  concat_strings (l1 ++ l2) = concat_strings l1 +:+ concat_strings l2.
Proof.
  induction l1 as [|s l1 IH]; [done|].
  cbn. by rewrite IH, app_assoc_s.
Qed.

Lemma substring_all s : String.substring 0 (String.length s) s = s.
Proof. induction s as [|c s IH]; [done|]. cbn. by rewrite IH. Qed.

(** Induction on a byte string, three bytes at a time. *)
Lemma string_ind3 (P : string -> Prop) :
  P "" ->
  (forall c0, P (String c0 "")) ->
  (forall c0 c1, P (String c0 (String c1 ""))) ->
  (forall c0 c1 c2 rest, P rest -> P (String c0 (String c1 (String c2 rest)))) ->
  forall s, P s.
Proof.
  intros P0 P1 P2 P3 s.
  assert (P s /\ (forall c0, P (String c0 s)) /\ forall c0 c1, P (String c0 (String c1 s)))
    as [Hs _]; [|exact Hs].
  induction s as [|c s (IH0 & IH1 & IH2)]; [by repeat split|].
  split; [apply IH1 | split; [intros c0; apply IH2 | intros c0 c1; by apply P3]].
Qed.

(** ** Bytes *)

Lemma byte_val_range c : 0 <= byte_val c < 256.
Proof. unfold byte_val. pose proof (N_ascii_bounded c). lia. Qed.

Lemma byte_of_val c : byte_of (byte_val c) = c.
Proof.
  unfold byte_of. rewrite Z.mod_small by apply byte_val_range.
  unfold byte_val. rewrite N2Z.id. apply ascii_N_embedding.
Qed.

Lemma byte_val_land c : Z.land (byte_val c) (Z.ones 8) = byte_val c.
Proof. rewrite Z.land_ones by lia. apply Z.mod_small, byte_val_range. Qed.

Lemma byte_of_land z : byte_of z = byte_of (Z.land z (Z.ones 8)).
Proof.
  unfold byte_of. rewrite Z.land_ones by lia. change (2 ^ 8) with 256.
  by rewrite Z.mod_mod.
Qed.

(** A fact about every byte, by trying the 256 of them. *)
Ltac each_byte c := destruct c as [[] [] [] [] [] [] [] []]; vm_compute; try done.

(** ** Case folding of header names *)

Lemma lower_lower c : lower_byte (lower_byte c) = lower_byte c.
Proof. each_byte c. Qed.

Lemma upper_lower c : upper_byte (lower_byte c) = upper_byte c.
Proof. each_byte c. Qed.

Lemma lower_upper c : lower_byte (upper_byte c) = lower_byte c.
Proof. each_byte c. Qed.

Lemma valid_lower c : validHeaderFieldByte (lower_byte c) = validHeaderFieldByte c.
Proof. each_byte c. Qed.

Lemma is_token_fold s :
  string_forallb validHeaderFieldByte (ascii_ToLower s)
  = string_forallb validHeaderFieldByte s.
Proof.
  unfold ascii_ToLower. induction s as [|c s IH]; [done|].
  cbn. by rewrite valid_lower, IH.
Qed.

Lemma canonicalize_fold upper s :
  canonicalize upper (ascii_ToLower s) = canonicalize upper s.
Proof.
  unfold ascii_ToLower.
  revert upper. induction s as [|c s IH]; intros upper; [done|].
  cbn. rewrite upper_lower, lower_lower. f_equal. apply IH.
Qed.

(** Canonicalisation changes nothing but the case of letters. *)
Lemma ToLower_canonicalize upper s :
  ascii_ToLower (canonicalize upper s) = ascii_ToLower s.
Proof.
  unfold ascii_ToLower.
  revert upper. induction s as [|c s IH]; intros upper; [done|].
  cbn. rewrite IH. f_equal.
  destruct upper; [apply lower_upper | apply lower_lower].
Qed.

Lemma EqualFold_CanonicalHeaderKey s : EqualFold (CanonicalHeaderKey s) s.
Proof.
  unfold EqualFold, CanonicalHeaderKey.
  destruct (string_forallb _ _); [apply ToLower_canonicalize | done].
Qed.

(** Names that differ only by case have the same canonical key, when they
    are tokens. *)
Lemma CanonicalHeaderKey_fold s t :
  is_token s -> EqualFold s t -> CanonicalHeaderKey s = CanonicalHeaderKey t.
Proof.
  unfold is_token, EqualFold, CanonicalHeaderKey. intros Hs Hst.
  assert (Ht : string_forallb validHeaderFieldByte t = true).
  { by rewrite <- is_token_fold, <- Hst, is_token_fold. }
  rewrite Hs, Ht, <- (canonicalize_fold _ s), <- (canonicalize_fold _ t).
  by rewrite Hst.
Qed.

(** The key is [Host] exactly for the names that are [host] up to case. *)
Lemma CanonicalHeaderKey_Host h :
  CanonicalHeaderKey h = "Host" <-> EqualFold h "host".
Proof.
  split.
  - intros Hk. unfold EqualFold.
    rewrite <- (EqualFold_CanonicalHeaderKey h), Hk. done.
  - intros Hh. symmetry.
    change "Host" with (CanonicalHeaderKey "host").
    apply CanonicalHeaderKey_fold; [done | by symmetry].
Qed.

(** ** The order of query segments *)

Lemma sort_Strings_sorted a : StronglySorted String.le (sort_Strings a).
Proof. apply StronglySorted_merge_sort; apply _. Qed.

Lemma sort_Strings_perm a : sort_Strings a ≡ₚ a.
Proof. apply merge_sort_Permutation. Qed.

(** A slice has one sorted arrangement, so [sort.Strings] is determined by
    "sorted" and "same elements". *)
Lemma sort_Strings_unique a l :
  l ≡ₚ a -> StronglySorted String.le l -> l = sort_Strings a.
Proof.
  intros Hp Hs.
  apply (StronglySorted_unique String.le); [exact Hs | apply sort_Strings_sorted |].
  by rewrite Hp, sort_Strings_perm.
Qed.

(** Go's [<=] on strings: byte by byte, a prefix first. *)
Lemma String_le_bytewise a s b t :
  String.le (String a s) (String b t)
  <-> byte_val a < byte_val b \/ (a = b /\ String.le s t).
Proof.
  unfold String.le, String.leb, byte_val. cbn [String.compare].
  unfold Ascii.compare.
  destruct (N.compare_spec (N_of_ascii a) (N_of_ascii b)) as [E|L|G].
  - assert (a = b) as <-
      by (rewrite <- (ascii_N_embedding a), <- (ascii_N_embedding b); congruence).
    split; [by right | intros [?|[_ ?]]; [lia | done]].
  - split; [intros _; left; lia | done].
  - split; [done | intros [?|[-> _]]; lia].
Qed.

Example sort_query_example :
  sort_Strings (strings_Split "foo=bar&a=1" "&") = ["a=1"; "foo=bar"].
Proof. vm_compute. reflexivity. Qed.

Example sort_query_case :
  sort_Strings (strings_Split "a=0&A=1" "&") = ["A=1"; "a=0"].
Proof. vm_compute. reflexivity. Qed.

(** ** What [Canonize] writes *)

Section Canonical_form.
Context `{GoRuntime}.

Lemma trimmed_values rhvs acc :
  fold_left (fun hvs hv => hvs ++ [strings_TrimSpace hv]) rhvs acc
  = acc ++ map strings_TrimSpace rhvs.
Proof.
  revert acc. induction rhvs as [|hv rhvs IH]; intros acc; cbn.
  - by rewrite app_nil_r.
  - by rewrite IH, <- app_assoc.
Qed.

Lemma write_header_line req msg h :
  write_header req msg h = msg +:+ header_line req h.
Proof.
  unfold write_header, header_line, occurrences, effective_host, WriteString, WriteRune.
  rewrite trimmed_values. cbn [app].
  rewrite !app_assoc_s.
  destruct (decide (CanonicalHeaderKey h = "Host")) as [Hk|Hk];
    destruct (decide (EqualFold h "host")) as [Hf|Hf]; try done.
  - by apply CanonicalHeaderKey_Host in Hk.
  - by apply CanonicalHeaderKey_Host in Hf.
Qed.

Lemma write_headers req names msg :
  fold_left (write_header req) names msg
  = msg +:+ concat_strings (map (header_line req) names).
Proof.
  revert msg. induction names as [|h names IH]; intros msg; cbn.
  - by rewrite app_nil_r_s.
  - by rewrite IH, write_header_line, app_assoc_s.
Qed.

Lemma Header_Get_lower (h : Header) :
  Header_Get h "x-signed-headers" = Header_Get h "X-Signed-Headers".
Proof.
  unfold Header_Get.
  replace (CanonicalHeaderKey "x-signed-headers") with "X-Signed-Headers"
    by (by vm_compute).
  replace (CanonicalHeaderKey "X-Signed-Headers") with "X-Signed-Headers"
    by (by vm_compute).
  done.
Qed.

(** The output of [Canonize], piece by piece. *)
Lemma Canonize_pieces req body :
  Canonize req body
  = (request_line req (sort_Strings (strings_Split (RawQuery (Request_URL req)) "&"))
       +:+ String LF (header_section req +:+ rd_data body),
     rd_err body).
Proof.
  unfold Canonize, io_Copy, header_section, signed_header_names, request_line,
    WriteString, WriteRune, MethodGet.
  rewrite write_headers, Header_Get_lower. f_equal.
  destruct (decide (RawQuery (Request_URL req) = "")) as [Hq|Hq].
  - rewrite Hq. cbn [String.length Nat.ltb Nat.leb].
    rewrite !app_assoc_s. done.
  - destruct (RawQuery (Request_URL req)) as [|c q] eqn:Eq; [done|].
    cbn [String.length Nat.ltb Nat.leb].
    rewrite !app_assoc_s. done.
Qed.

(** C2: the canonical form of the documented example, a PUT of
    /v1/resources?foo=bar that signs its Date header, is the four lines
    of [example_canonical], the body last and with no line feed after it. *)
Theorem Canonize_example :
  strings_ToLower "PUT" = "put" ->
  strings_ToLower "date" = "date" ->
  strings_ToLower "x-signed-headers" = "x-signed-headers" ->
  strings_TrimSpace "date" = "date" ->
  strings_TrimSpace "2017-03-05T23:53:08Z" = "2017-03-05T23:53:08Z" ->
  EscapedPath (Request_URL example_request) = "/v1/resources" ->
  Canonize example_request (Body example_request) = (example_canonical, None).
Proof.
  intros Hput Hdate Hxsh Tdate Tstamp Hpath.
  rewrite Canonize_pieces. f_equal.
  unfold request_line, header_section, signed_header_names.
  rewrite Hpath.
  change (Method example_request) with "PUT".
  rewrite decide_False by done. rewrite Hput.
  change (strings_Split (Header_Get (Request_Header example_request) "X-Signed-Headers") " ")
    with ["date"].
  cbn [app map concat_strings].
  unfold header_line.
  rewrite Hdate, Hxsh.
  change (occurrences example_request "date") with ["2017-03-05T23:53:08Z"].
  change (occurrences example_request "x-signed-headers") with ["date"].
  cbn [map strings_Join]. rewrite Tdate, Tstamp.
  reflexivity.
Qed.

(** C3: the first line of the canonical form is the method in lower case
    ([GET] when the request has none), a space, the escaped path and, only
    when the raw query is not empty, a question mark and the raw query's
    pieces between ampersands, put in increasing byte order as whole
    strings and joined by ampersands again. *)
Theorem Canonize_request_line (req : Request) (body : Reader) :
  (exists segments,
     segments ≡ₚ strings_Split (RawQuery (Request_URL req)) "&"
     /\ StronglySorted String.le segments)
  /\ (forall segments,
        segments ≡ₚ strings_Split (RawQuery (Request_URL req)) "&" ->
        StronglySorted String.le segments ->
        exists rest,
          (Canonize req body).1 = request_line req segments +:+ String LF rest)
  /\ (RawQuery (Request_URL req) = "" ->
      forall segments,
        request_line req segments
        = strings_ToLower (if decide (Method req = "") then "GET" else Method req)
          +:+ " " +:+ EscapedPath (Request_URL req)).
Proof.
  split; [|split].
  - exists (sort_Strings (strings_Split (RawQuery (Request_URL req)) "&")).
    split; [apply sort_Strings_perm | apply sort_Strings_sorted].
  - intros segments Hp Hs.
    rewrite (sort_Strings_unique _ _ Hp Hs), Canonize_pieces.
    by eexists.
  - intros Hq segments. unfold request_line.
    destruct (decide (RawQuery (Request_URL req) = "")); [|done].
    by rewrite app_nil_r_s.
Qed.

(** A name that is a token finds the values kept under the key that
    matches it without regard to case. *)
Lemma occurrences_fold req name key values :
  is_token name -> ~ EqualFold name "host" ->
  Request_Header req !! key = Some values ->
  CanonicalHeaderKey key = key -> EqualFold key name ->
  occurrences req name = values.
Proof.
  intros Htok Hhost Hkey Hcanon Hfold. unfold occurrences.
  rewrite decide_False by done.
  rewrite (CanonicalHeaderKey_fold name key), Hcanon; [| done | by symmetry].
  unfold Header_index. by rewrite Hkey.
Qed.

(** C4, as the code has it: after the first line come the header lines,
    one for each name that the value of [X-Signed-Headers] lists between
    spaces and a last one for [x-signed-headers] itself: the name in lower
    case, a colon and a space, the occurrences of the header trimmed and
    joined by a comma and a space, a line feed.  The occurrences are the
    effective host for [host], and else the values that the header map
    holds under the canonical key of the name, none for a key it does not
    hold.  So a name that is a token finds the values of a header that the
    map holds under its canonical key, whatever the case of the name; the
    match is not without regard to case for other names and other keys. *)
Theorem Canonize_header_section (req : Request) (body : Reader) :
  (Canonize req body).1
  = request_line req (sort_Strings (strings_Split (RawQuery (Request_URL req)) "&"))
    +:+ String LF (header_section req +:+ rd_data body)
  /\ (forall name key values,
        is_token name -> ~ EqualFold name "host" ->
        Request_Header req !! key = Some values ->
        CanonicalHeaderKey key = key -> EqualFold key name ->
        occurrences req name = values)
  /\ (forall name, EqualFold name "host" ->
        occurrences req name
        = [if decide (Host req = "") then URL_Host (Request_URL req) else Host req])
  /\ (forall name, ~ EqualFold name "host" ->
        Request_Header req !! CanonicalHeaderKey name = None ->
        header_line req name = strings_ToLower name +:+ ": " +:+ String LF "")
  /\ (exists before,
        header_section req = before +:+ header_line req "x-signed-headers")
  /\ (forall v, Request_Header req !! "X-Signed-Headers" = Some [v] ->
        signed_header_names req = strings_Split v " " ++ ["x-signed-headers"]
        /\ header_line req "x-signed-headers"
           = strings_ToLower "x-signed-headers" +:+ ": " +:+ strings_TrimSpace v
             +:+ String LF "")
  /\ (forall name, ~ EqualFold name "host" ->
        occurrences req name
        = Header_index (Request_Header req) (CanonicalHeaderKey name)).
Proof.
  split; [by rewrite Canonize_pieces|].
  split; [apply occurrences_fold|].
  split.
  { intros name Hhost. unfold occurrences, effective_host. by rewrite decide_True. }
  split.
  { intros name Hhost Hnone. unfold header_line, occurrences, Header_index.
    rewrite decide_False by done. by rewrite Hnone. }
  split.
  { unfold header_section, signed_header_names.
    rewrite map_app, concat_strings_app. cbn. rewrite app_nil_r_s. by eexists. }
  split.
  { intros v Hv. split.
    - unfold signed_header_names, Header_Get, Header_index.
      change (CanonicalHeaderKey "X-Signed-Headers") with "X-Signed-Headers".
      by rewrite Hv.
    - unfold header_line, occurrences, Header_index.
      rewrite decide_False by (by vm_compute).
      change (CanonicalHeaderKey "x-signed-headers") with "X-Signed-Headers".
      by rewrite Hv. }
  intros name Hhost. unfold occurrences. by rewrite decide_False.
Qed.

End Canonical_form.

Lemma Canonize_example_witness :
  @Canonize (ascii_runtime 0) example_request (Body example_request)
  = (example_canonical, None).
Proof. apply (@Canonize_example (ascii_runtime 0)); reflexivity. Defined.

Lemma Canonize_request_line_witness :
  let H := ascii_runtime 0 in
  let req := mkRequest "" (mkURL "/a b" "" "foo=bar&a=1" "") ∅ "" (bytes_NewReader "") in
  exists rest,
    (Canonize req (Body req)).1
    = "get /a%20b?a=1&foo=bar" +:+ String LF rest.
Proof.
  intros H req.
  destruct (Canonize_request_line req (Body req)) as (_ & Hline & _).
  destruct (Hline ["a=1"; "foo=bar"]) as [rest Hrest].
  - vm_compute. apply perm_swap.
  - repeat constructor.
  - exists rest. exact Hrest.
Defined.

Lemma Canonize_header_section_witness :
  let H := ascii_runtime 0 in
  let req :=
    mkRequest "GET" (mkURL "/" "" "" "url.example")
      (<["X-Signed-Headers" := ["HOST accept x-none"]]>
         (<["Accept" := [" text/html "; "text/plain"]]> ∅))
      "" (bytes_NewReader "body") in
  occurrences req "accept" = [" text/html "; "text/plain"]
  /\ (Canonize req (Body req)).1
     = "get /" +:+ String LF
       ("host: url.example" +:+ String LF
       ("accept: text/html, text/plain" +:+ String LF
       ("x-none: " +:+ String LF
       ("x-signed-headers: HOST accept x-none" +:+ String LF
        "body")))).
Proof.
  intros H req.
  destruct (Canonize_header_section req (Body req)) as (Hform & Hfold & _).
  split.
  - apply (Hfold "accept" "Accept"); done.
  - rewrite Hform. reflexivity.
Defined.

(** The claim as the specification words it has the occurrences found by
    a match of names without regard to case, in every request.  A header
    that the map holds under a key that is not canonical is not found, not
    even by a name equal to that key; and a header whose name is not a
    token is not found by the same name in another case. *)
Lemma Canonize_key_not_canonical :
  let H := ascii_runtime 0 in
  let req :=
    mkRequest "GET" (mkURL "/" "" "" "")
      (<["X-Signed-Headers" := ["x-custom"]]> (<["x-custom" := ["v"]]> ∅))
      "" (bytes_NewReader "") in
  let req2 :=
    mkRequest "GET" (mkURL "/" "" "" "")
      (<["X-Signed-Headers" := ["x@y"]]> (<["X@Y" := ["v"]]> ∅))
      "" (bytes_NewReader "") in
  (Request_Header req !! "x-custom" = Some ["v"]
   /\ is_token "x-custom" /\ EqualFold "x-custom" "x-custom"
   /\ occurrences_by_name (Request_Header req) "x-custom" = ["v"]
   /\ occurrences req "x-custom" = []
   /\ (Canonize req (Body req)).1
      = "get /" +:+ String LF
          ("x-custom: " +:+ String LF ("x-signed-headers: x-custom" +:+ String LF "")))
  /\ (Request_Header req2 !! "X@Y" = Some ["v"]
      /\ CanonicalHeaderKey "X@Y" = "X@Y" /\ EqualFold "X@Y" "x@y"
      /\ occurrences_by_name (Request_Header req2) "x@y" = ["v"]
      /\ occurrences req2 "x@y" = []
      /\ (Canonize req2 (Body req2)).1
         = "get /" +:+ String LF
             ("x@y: " +:+ String LF ("x-signed-headers: x@y" +:+ String LF ""))).
Proof.
  intros H req req2.
  split; (split; [by vm_compute|]); (split; [by vm_compute|]);
    (split; [by vm_compute|]); (split; [by vm_compute|]); (split; by vm_compute).
Qed.

(** ** Base64: decoding what was encoded *)

Lemma sextet_range x : 0 <= Z.land x 63 < 64.
Proof.
  change 63 with (Z.ones 6). rewrite Z.land_ones by lia.
  apply Z.mod_pos_bound. lia.
Qed.

(** A fact about every 6-bit value, by trying the 64 of them. *)
Ltac each_sextet v :=
  let n := fresh "n" in
  let Hn := fresh "Hn" in
  assert (exists n, (n < 64)%nat /\ v = Z.of_nat n) as (n & Hn & ->)
    by (exists (Z.to_nat v); lia);
  do 64 (destruct n as [|n]; [vm_compute; done|]); lia.

(** The URL alphabet and [decodeMap] are inverse of each other. *)
Lemma decodeMap_encode v :
  0 <= v < 64 -> decodeMap (encode_byte RawURLEncoding v) = Some v.
Proof. intros Hv. each_sextet v. Qed.

Lemma remap_std v :
  0 <= v < 64 ->
  remap (encode_byte StdEncoding v) = encode_byte RawURLEncoding v.
Proof. intros Hv. each_sextet v. Qed.

Lemma remap_url v :
  0 <= v < 64 ->
  remap (encode_byte RawURLEncoding v) = encode_byte RawURLEncoding v.
Proof. intros Hv. each_sextet v. Qed.

Lemma encode_not_pad v :
  0 <= v < 64 -> encode_byte RawURLEncoding v ≠ "="%char.
Proof. intros Hv. each_sextet v. Qed.

Lemma remap_encode enc v :
  enc ∈ base64_encodings -> 0 <= v < 64 ->
  remap (encode_byte enc v) = encode_byte RawURLEncoding v.
Proof.
  unfold base64_encodings. intros Henc Hv.
  repeat (apply elem_of_cons in Henc as [->|Henc];
          [first [by apply remap_std | by apply remap_url]|]).
  by apply elem_of_nil in Henc.
Qed.

Lemma Replace_twice s :
  strings_Replace (strings_Replace s "+" "-") "/" "_" = string_map remap s.
Proof.
  unfold strings_Replace. induction s as [|c s IH]; [done|].
  cbn. by rewrite IH.
Qed.

(** Equalities between shifts and masks, bit by bit. *)
Ltac bits :=
  Z.bitblast;
  repeat (rewrite ?Z.land_spec, ?Z.lor_spec, ?Z.testbit_ones_nonneg by lia;
          repeat match goal with
                 | |- context [?a <? ?b] => destruct (Z.ltb_spec a b)
                 end);
  rewrite ?Z.testbit_neg_r by lia;
  try lia; try btauto.

(** The four 6-bit values of 24 bits give the 24 bits back. *)
Lemma quantum_val_24 val :
  quantum_val (Z.land (Z.shiftr (Z.land val (Z.ones 24)) 18) (Z.ones 6))
              (Z.land (Z.shiftr (Z.land val (Z.ones 24)) 12) (Z.ones 6))
              (Z.land (Z.shiftr (Z.land val (Z.ones 24)) 6) (Z.ones 6))
              (Z.land (Z.land val (Z.ones 24)) (Z.ones 6))
  = Z.land val (Z.ones 24).
Proof. unfold quantum_val. bits. Qed.

Lemma quantum_val_18 val :
  quantum_val (Z.land (Z.shiftr (Z.shiftl (Z.land val (Z.ones 16)) 8) 18) (Z.ones 6))
              (Z.land (Z.shiftr (Z.shiftl (Z.land val (Z.ones 16)) 8) 12) (Z.ones 6))
              (Z.land (Z.shiftr (Z.shiftl (Z.land val (Z.ones 16)) 8) 6) (Z.ones 6))
              0
  = Z.shiftl (Z.land val (Z.ones 16)) 8.
Proof. unfold quantum_val. bits. Qed.

Lemma quantum_val_12 val :
  quantum_val (Z.land (Z.shiftr (Z.shiftl (Z.land val (Z.ones 8)) 16) 18) (Z.ones 6))
              (Z.land (Z.shiftr (Z.shiftl (Z.land val (Z.ones 8)) 16) 12) (Z.ones 6))
              0 0
  = Z.shiftl (Z.land val (Z.ones 8)) 16.
Proof. unfold quantum_val. bits. Qed.

Lemma three_bytes b0 b1 b2 :
  Z.lor (Z.lor (Z.shiftl (Z.land b0 (Z.ones 8)) 16) (Z.shiftl (Z.land b1 (Z.ones 8)) 8))
        (Z.land b2 (Z.ones 8))
  = Z.land (Z.lor (Z.lor (Z.shiftl b0 16) (Z.shiftl (Z.land b1 (Z.ones 8)) 8))
                  (Z.land b2 (Z.ones 8))) (Z.ones 24).
Proof. bits. Qed.

Lemma two_bytes b0 b1 :
  Z.lor (Z.shiftl (Z.land b0 (Z.ones 8)) 16) (Z.shiftl (Z.land b1 (Z.ones 8)) 8)
  = Z.shiftl (Z.land (Z.lor (Z.shiftl b0 8) (Z.land b1 (Z.ones 8))) (Z.ones 16)) 8.
Proof. bits. Qed.

Lemma byte_2 b0 b1 b2 :
  Z.land (Z.shiftr (Z.lor (Z.lor (Z.shiftl (Z.land b0 (Z.ones 8)) 16)
                                 (Z.shiftl (Z.land b1 (Z.ones 8)) 8))
                          (Z.land b2 (Z.ones 8))) 16) (Z.ones 8)
  = Z.land b0 (Z.ones 8).
Proof. bits. Qed.

Lemma byte_1 b0 b1 b2 :
  Z.land (Z.shiftr (Z.lor (Z.lor (Z.shiftl (Z.land b0 (Z.ones 8)) 16)
                                 (Z.shiftl (Z.land b1 (Z.ones 8)) 8))
                          (Z.land b2 (Z.ones 8))) 8) (Z.ones 8)
  = Z.land b1 (Z.ones 8).
Proof. bits. Qed.

Lemma byte_0 b0 b1 b2 :
  Z.land (Z.shiftr (Z.lor (Z.lor (Z.shiftl (Z.land b0 (Z.ones 8)) 16)
                                 (Z.shiftl (Z.land b1 (Z.ones 8)) 8))
                          (Z.land b2 (Z.ones 8))) 0) (Z.ones 8)
  = Z.land b2 (Z.ones 8).
Proof. bits. Qed.

(** The bytes of a quantum come back from its 24 bits. *)
Lemma bytes_of_quantum c0 c1 c2 :
  let val := Z.lor (Z.lor (Z.shiftl (byte_val c0) 16) (Z.shiftl (byte_val c1) 8))
                   (byte_val c2) in
  quantum_val (Z.land (Z.shiftr val 18) 63) (Z.land (Z.shiftr val 12) 63)
              (Z.land (Z.shiftr val 6) 63) (Z.land val 63) = val
  /\ byte_of (Z.shiftr val 16) = c0
  /\ byte_of (Z.shiftr val 8) = c1
  /\ byte_of (Z.shiftr val 0) = c2.
Proof.
  intros val. subst val.
  rewrite <- (byte_val_land c0), <- (byte_val_land c1), <- (byte_val_land c2).
  repeat split.
  - rewrite three_bytes. apply quantum_val_24.
  - rewrite byte_of_land, byte_2, byte_val_land. apply byte_of_val.
  - rewrite byte_of_land, byte_1, byte_val_land. apply byte_of_val.
  - rewrite byte_of_land, byte_0, byte_val_land. apply byte_of_val.
Qed.

Lemma bytes_of_two c0 c1 :
  let val := Z.lor (Z.shiftl (byte_val c0) 16) (Z.shiftl (byte_val c1) 8) in
  quantum_val (Z.land (Z.shiftr val 18) 63) (Z.land (Z.shiftr val 12) 63)
              (Z.land (Z.shiftr val 6) 63) 0 = val
  /\ byte_of (Z.shiftr val 16) = c0
  /\ byte_of (Z.shiftr val 8) = c1.
Proof.
  intros val. subst val.
  rewrite <- (byte_val_land c0), <- (byte_val_land c1).
  assert (Hpad : forall x y,
            Z.lor (Z.shiftl (Z.land x (Z.ones 8)) 16) (Z.shiftl (Z.land y (Z.ones 8)) 8)
            = Z.lor (Z.lor (Z.shiftl (Z.land x (Z.ones 8)) 16)
                           (Z.shiftl (Z.land y (Z.ones 8)) 8))
                    (Z.land 0 (Z.ones 8)))
    by (intros; by rewrite Z.land_0_l, Z.lor_0_r).
  repeat split.
  - rewrite two_bytes. apply quantum_val_18.
  - rewrite byte_of_land, Hpad, byte_2, byte_val_land. apply byte_of_val.
  - rewrite byte_of_land, Hpad, byte_1, byte_val_land. apply byte_of_val.
Qed.

Lemma bytes_of_one c0 :
  let val := Z.shiftl (byte_val c0) 16 in
  quantum_val (Z.land (Z.shiftr val 18) 63) (Z.land (Z.shiftr val 12) 63) 0 0 = val
  /\ byte_of (Z.shiftr val 16) = c0.
Proof.
  intros val. subst val.
  rewrite <- (byte_val_land c0).
  split.
  - apply quantum_val_12.
  - rewrite Z.shiftr_shiftl_l, Z.sub_diag, Z.shiftl_0_r by lia.
    rewrite byte_val_land. apply byte_of_val.
Qed.

Lemma sextets_cons v s :
  0 <= v < 64 ->
  sextets (String (encode_byte RawURLEncoding v) s) = cons v <$> sextets s.
Proof. intros Hv. cbn [sextets]. by rewrite decodeMap_encode. Qed.

(** Decoding undoes encoding, for the raw URL encoding. *)
Lemma DecodeString_EncodeToString src :
  RawURLEncoding_DecodeString (EncodeToString RawURLEncoding src) = Some src.
Proof.
  unfold RawURLEncoding_DecodeString.
  induction src as [|c0|c0 c1|c0 c1 c2 rest IH] using string_ind3.
  - done.
  - cbn [EncodeToString]. unfold padding. cbn [padChar RawURLEncoding].
    rewrite !sextets_cons by apply sextet_range.
    cbn [sextets fmap option_fmap option_map mbind option_bind decodeQuanta].
    destruct (bytes_of_one c0) as [-> ->]. done.
  - cbn [EncodeToString]. unfold padding. cbn [padChar RawURLEncoding].
    rewrite !sextets_cons by apply sextet_range.
    cbn [sextets fmap option_fmap option_map mbind option_bind decodeQuanta].
    destruct (bytes_of_two c0 c1) as (-> & -> & ->). done.
  - cbn [EncodeToString].
    rewrite !sextets_cons by apply sextet_range.
    destruct (sextets (EncodeToString RawURLEncoding rest)) as [vs|]; [|done].
    cbn [fmap option_fmap option_map mbind option_bind decodeQuanta] in IH |- *.
    destruct (bytes_of_quantum c0 c1 c2) as (-> & -> & -> & ->).
    by rewrite IH.
Qed.

Lemma TrimRight_cons c s cut :
  c ≠ cut -> strings_TrimRight (String c s) cut = String c (strings_TrimRight s cut).
Proof.
  intros Hc. cbn [strings_TrimRight].
  destruct (strings_TrimRight s cut); [by rewrite decide_False | done].
Qed.

Lemma TrimRight_padding enc n :
  enc ∈ base64_encodings ->
  strings_TrimRight (string_map remap (padding enc n)) "=" = "".
Proof.
  unfold base64_encodings, padding. intros Henc.
  assert (Hpad : padChar enc = Some "="%char \/ padChar enc = None).
  { repeat (apply elem_of_cons in Henc as [->|Henc]; [by (left + right)|]).
    by apply elem_of_nil in Henc. }
  destruct Hpad as [-> | ->]; [|done].
  induction n as [|n IH]; [done|].
  cbn [replicate string_of_list_ascii string_map strings_TrimRight].
  by rewrite IH.
Qed.

(** What [NewVerifier] does to its argument before decoding turns each of
    the four encodings of a key into its raw URL encoding. *)
Lemma lenient_EncodeToString enc src :
  enc ∈ base64_encodings ->
  strings_TrimRight
    (strings_Replace (strings_Replace (EncodeToString enc src) "+" "-") "/" "_") "="
  = EncodeToString RawURLEncoding src.
Proof.
  intros Henc. rewrite Replace_twice.
  induction src as [|c0|c0 c1|c0 c1 c2 rest IH] using string_ind3.
  - done.
  - cbn [EncodeToString string_map].
    rewrite !(remap_encode enc) by (done || apply sextet_range).
    rewrite !TrimRight_cons by (apply encode_not_pad, sextet_range).
    by rewrite TrimRight_padding.
  - cbn [EncodeToString string_map].
    rewrite !(remap_encode enc) by (done || apply sextet_range).
    rewrite !TrimRight_cons by (apply encode_not_pad, sextet_range).
    by rewrite TrimRight_padding.
  - cbn [EncodeToString string_map].
    rewrite !(remap_encode enc) by (done || apply sextet_range).
    rewrite !TrimRight_cons by (apply encode_not_pad, sextet_range).
    by rewrite IH.
Qed.

(** ** Parsing the signature header *)

(** C7, as the code has it: [ParseSignature] succeeds exactly when the
    header splits on single spaces into three pieces, empty or not, that
    each decode as unpadded URL-safe base64, and the signature holds the
    three decoded values; with another number of pieces it fails with the
    400 error of the package, and with a piece that does not decode it
    fails with the decoder's error. *)
Theorem ParseSignature_spec (value : string) :
  let parts := strings_Split value " " in
  (forall sig,
     ParseSignature value = inl sig
     <-> exists t0 t1 t2,
           parts = [t0; t1; t2]
           /\ RawURLEncoding_DecodeString t0 = Some (Value sig)
           /\ RawURLEncoding_DecodeString t1 = Some (PublicKey sig)
           /\ RawURLEncoding_DecodeString t2 = Some (Endorsement sig))
  /\ (length parts ≠ 3%nat ->
      ParseSignature value
      = inr (error_Error (mkError 400 "Could not parse Signature chain")))
  /\ (length parts = 3%nat ->
      (exists t, t ∈ parts /\ RawURLEncoding_DecodeString t = None) ->
      ParseSignature value = inr CorruptInputError).
Proof.
  unfold ParseSignature. cbv zeta.
  generalize (strings_Split value " "). intros parts.
  destruct (decide (length parts ≠ 3%nat)) as [Hn|Hn].
  - split; [|split]; [|done|done].
    intros sig. split; [done|].
    intros (t0 & t1 & t2 & Hp & _). by rewrite Hp in Hn.
  - destruct parts as [|t0 [|t1 [|t2 [|t3 parts]]]];
      try (exfalso; apply Hn; cbn; lia).
    cbn [lookup_total list_lookup_total].
    unfold base64_NewFromString.
    split; [|split]; [|done|].
    + intros [v k e]. cbn [Value PublicKey Endorsement].
      split.
      * intros Hparse. exists t0, t1, t2.
        destruct (RawURLEncoding_DecodeString t0); [|done].
        destruct (RawURLEncoding_DecodeString t1); [|done].
        destruct (RawURLEncoding_DecodeString t2); [|done].
        by injection Hparse as -> -> ->.
      * intros (x & y & z & [= <- <- <-] & -> & -> & ->). done.
    + intros _ (t & Ht & Hnone).
      destruct (RawURLEncoding_DecodeString t0) eqn:E0; [|done].
      destruct (RawURLEncoding_DecodeString t1) eqn:E1; [|done].
      destruct (RawURLEncoding_DecodeString t2) eqn:E2; [|done].
      repeat (apply elem_of_cons in Ht as [->|Ht]; [congruence|]).
      by apply elem_of_nil in Ht.
Qed.

Lemma ParseSignature_spec_witness :
  ParseSignature "AQID BA BQY"
  = inl (mkSignature (String "001" (String "002" (String "003" "")))
                     (String "004" "") (String "005" (String "006" ""))).
Proof.
  apply (proj1 (ParseSignature_spec "AQID BA BQY")).
  exists "AQID", "BA", "BQY". repeat split; vm_compute; reflexivity.
Defined.

(** The claim as the specification words it asks for non-empty pieces and
    a structured error for each failure: a header of two spaces is three
    empty pieces and parses, and a piece that is not base64 gives the
    decoder's error, which is not an [*Error]. *)
Lemma ParseSignature_empty_pieces :
  strings_Split "  " " " = [""; ""; ""]
  /\ ParseSignature "  " = inl (mkSignature "" "" "")
  /\ ParseSignature "AA AA A" = inr CorruptInputError
  /\ forall e, CorruptInputError ≠ error_Error e.
Proof. repeat split; try done. Qed.

(** ** The signature chain *)

Section Chain.
Context `{Ed25519}.

Lemma ed25519_Verify_trace publicKey message sig :
  trace (ed25519_Verify publicKey message sig) = [Ed25519Verify publicKey message sig].
Proof.
  unfold ed25519_Verify, mbind, run_bind, emit, panic, mret, run_ret. cbn.
  repeat case_match; reflexivity.
Qed.

(** [ed25519.Verify] panics exactly on a public key of the wrong size. *)
Lemma ed25519_Verify_panics publicKey message sig :
  (exists text, result (ed25519_Verify publicKey message sig) = Panics text)
  <-> String.length publicKey ≠ PublicKeySize.
Proof.
  unfold ed25519_Verify, mbind, run_bind, emit, panic, mret, run_ret. cbn.
  destruct (decide (String.length publicKey ≠ PublicKeySize)) as [Hne|He].
  - split; [done | by eexists].
  - split; [|done]. intros [text Ht]. by repeat case_match.
Qed.

(** The runs of [Validate], by the results of its two calls. *)
Lemma Validate_unfold s masterPubKey b :
  Validate s masterPubKey b
  = match result (ed25519_Verify masterPubKey (PublicKey s) (Endorsement s)) with
    | Panics text =>
        mkRun (Panics text) [Ed25519Verify masterPubKey (PublicKey s) (Endorsement s)]
    | Returns false =>
        mkRun (Returns (Some (error_Error
                 (mkError 401 "Request Public Key was not endorsed by Manifold"))))
              [Ed25519Verify masterPubKey (PublicKey s) (Endorsement s)]
    | Returns true =>
        match result (ed25519_Verify (PublicKey s) b (Value s)) with
        | Panics text =>
            mkRun (Panics text)
              [Ed25519Verify masterPubKey (PublicKey s) (Endorsement s);
               Ed25519Verify (PublicKey s) b (Value s)]
        | Returns false =>
            mkRun (Returns (Some (error_Error
                     (mkError 401 "Request was not signed by included Public Key"))))
              [Ed25519Verify masterPubKey (PublicKey s) (Endorsement s);
               Ed25519Verify (PublicKey s) b (Value s)]
        | Returns true =>
            mkRun (Returns None)
              [Ed25519Verify masterPubKey (PublicKey s) (Endorsement s);
               Ed25519Verify (PublicKey s) b (Value s)]
        end
    end.
Proof.
  unfold Validate.
  pose proof (ed25519_Verify_trace masterPubKey (PublicKey s) (Endorsement s)) as T1.
  pose proof (ed25519_Verify_trace (PublicKey s) b (Value s)) as T2.
  destruct (ed25519_Verify masterPubKey (PublicKey s) (Endorsement s)) as [r1 t1].
  destruct (ed25519_Verify (PublicKey s) b (Value s)) as [r2 t2].
  cbn in T1, T2. subst t1 t2.
  destruct r1 as [[|]|text]; [destruct r2 as [[|]|text'] | |]; reflexivity.
Qed.

(** C1: [Validate] checks the endorsement first, the master key over the
    bytes of the ephemeral key, and a failure is the 401 "not endorsed"
    with no second call of [ed25519.Verify]; then it checks the payload
    signature, the ephemeral key over the canonical bytes, and a failure
    is the 401 "not signed"; it returns nil exactly when both checks
    pass. *)
Theorem Validate_two_hop (s : Signature) (masterPubKey b : string) :
  let endorsed := ed25519_Verify masterPubKey (PublicKey s) (Endorsement s) in
  let signed := ed25519_Verify (PublicKey s) b (Value s) in
  (result endorsed = Returns false ->
     Validate s masterPubKey b
     = mkRun (Returns (Some (error_Error
                (mkError 401 "Request Public Key was not endorsed by Manifold"))))
             [Ed25519Verify masterPubKey (PublicKey s) (Endorsement s)])
  /\ (result endorsed = Returns true -> result signed = Returns false ->
     Validate s masterPubKey b
     = mkRun (Returns (Some (error_Error
                (mkError 401 "Request was not signed by included Public Key"))))
             [Ed25519Verify masterPubKey (PublicKey s) (Endorsement s);
              Ed25519Verify (PublicKey s) b (Value s)])
  /\ (result (Validate s masterPubKey b) = Returns None
      <-> result endorsed = Returns true /\ result signed = Returns true).
Proof.
  intros endorsed signed. subst endorsed signed.
  rewrite Validate_unfold.
  destruct (result (ed25519_Verify masterPubKey _ _)) as [[|]|text].
  - destruct (result (ed25519_Verify (PublicKey s) _ _)) as [[|]|text'];
      (split; [done | split; [done | split; [done | by intros []]]]).
  - split; [done | split; [done | split; [done | by intros []]]].
  - split; [done | split; [done | split; [done | by intros []]]].
Qed.

(** When the endorsement is a valid signature over an ephemeral key of
    the wrong size, the second call of [ed25519.Verify] panics. *)
Lemma Validate_bad_key_size s masterPubKey b :
  result (ed25519_Verify masterPubKey (PublicKey s) (Endorsement s)) = Returns true ->
  String.length (PublicKey s) ≠ PublicKeySize ->
  result (Validate s masterPubKey b)
  = Panics ("ed25519: bad public key length: "
            +:+ strconv_Itoa (String.length (PublicKey s))).
Proof.
  intros Hend Hlen. rewrite Validate_unfold, Hend.
  unfold ed25519_Verify at 1. unfold mbind, run_bind, emit, panic. cbn.
  by rewrite decide_True.
Qed.

(** With an ephemeral key of the wrong size, [Validate] gives the 401
    "not endorsed" when the endorsement is not a signature of that key. *)
Lemma Validate_bad_key_size_unendorsed s masterPubKey b :
  result (ed25519_Verify masterPubKey (PublicKey s) (Endorsement s)) = Returns false ->
  result (Validate s masterPubKey b)
  = Returns (Some (error_Error
      (mkError 401 "Request Public Key was not endorsed by Manifold"))).
Proof. intros Hend. by rewrite Validate_unfold, Hend. Qed.

(** The calls [Validate] makes are calls of [ed25519.Verify]. *)
Lemma Validate_trace s masterPubKey b :
  Forall (fun e => is_verify_event e = true) (trace (Validate s masterPubKey b)).
Proof.
  rewrite Validate_unfold. repeat case_match; cbn; repeat constructor.
Qed.

End Chain.

(** The chain of the test request verifies under the test key. *)
Lemma Validate_two_hop_witness :
  exists v sig,
    NewVerifier dummyKey = inl v
    /\ ParseSignature good_signature = inl sig
    /\ result (@Validate x_crypto sig (pk v)
                 (@Canonize (ascii_runtime 0) (newReq good_signature)
                    (bytes_NewReader test_body)).1)
       = Returns None.
Proof.
  eexists. eexists. split; [vm_compute; reflexivity|].
  split; [vm_compute; reflexivity|].
  apply (@Validate_two_hop x_crypto).
  split; vm_compute; reflexivity.
Defined.

(** C8, where the code departs from it: the chain [short_key_chain] has an
    ephemeral key of one byte, endorsed by the key [rfc8032_key]; with
    that master key [Validate] does not return a 401, it panics, whatever
    the canonical bytes, and so do [Verify] and the middleware, which
    writes no response. *)
Theorem Validate_short_key_panics :
  exists v sig,
    NewVerifier rfc8032_key = inl v
    /\ ParseSignature short_key_chain = inl sig
    /\ String.length (PublicKey sig) = 1%nat
    /\ (forall b,
          result (@Validate x_crypto sig (pk v) b)
          = Panics "ed25519: bad public key length: 1")
    /\ result (@Verify (ascii_runtime clock_2026) x_crypto v short_key_request
                 (Body short_key_request))
       = Panics "ed25519: bad public key length: 1"
    /\ result (@Negroni (ascii_runtime clock_2026) x_crypto v short_key_request)
       = Panics "ed25519: bad public key length: 1"
    /\ response_events
         (trace (@Negroni (ascii_runtime clock_2026) x_crypto v short_key_request))
       = [].
Proof.
  eexists. eexists. split; [vm_compute; reflexivity|].
  split; [vm_compute; reflexivity|].
  split; [reflexivity|].
  split.
  - intros b. apply (@Validate_bad_key_size x_crypto).
    + vm_compute. reflexivity.
    + cbn. unfold PublicKeySize. lia.
  - split; [vm_compute; reflexivity|].
    split; vm_compute; reflexivity.
Qed.

(** ** The verifier *)

(** C9: [NewVerifier] replaces [+] by [-] and [/] by [_], strips the
    [=] at the end and decodes the rest as raw URL base64.  It returns a
    verifier, which holds the decoded key, exactly when the text decodes to
    32 bytes, and the error [ErrInvalidPublicKey] otherwise.  So a 32-byte
    key is accepted in the standard and in the URL alphabet, padded or not;
    and a verifier it returned never makes [ed25519.Verify] panic on the
    master key. *)
Theorem NewVerifier_spec (publicKey : string) :
  let spk :=
    strings_TrimRight
      (strings_Replace (strings_Replace publicKey "+" "-") "/" "_") "=" in
  (forall v,
     NewVerifier publicKey = inl v
     <-> RawURLEncoding_DecodeString spk = Some (pk v)
         /\ String.length (pk v) = 32%nat)
  /\ (forall err, NewVerifier publicKey = inr err -> err = ErrInvalidPublicKey)
  /\ (forall enc key,
        enc ∈ base64_encodings -> String.length key = 32%nat ->
        publicKey = EncodeToString enc key ->
        NewVerifier publicKey = inl (mkVerifier key))
  /\ (forall v (E : Ed25519) message sig,
        NewVerifier publicKey = inl v ->
        exists ok, result (ed25519_Verify (pk v) message sig) = Returns ok).
Proof.
  intros spk.
  assert (Hiff : forall v,
     NewVerifier publicKey = inl v
     <-> RawURLEncoding_DecodeString spk = Some (pk v)
         /\ String.length (pk v) = 32%nat).
  { intros [key]. cbn [pk]. unfold NewVerifier. fold spk.
    unfold base64_NewFromString, PublicKeySize.
    destruct (RawURLEncoding_DecodeString spk) as [pkv|]; [|by split; [|intros []]].
    destruct (decide (String.length pkv ≠ 32%nat)) as [Hne|He].
    - split; [done|]. intros [[= ->] ?]. done.
    - apply dec_stable in He. rewrite <- He at 1. rewrite substring_all.
      split; [by intros [= <-] | by intros [[= ->] _]]. }
  split; [exact Hiff|]. split; [|split].
  - intros err. unfold NewVerifier.
    repeat case_match; congruence.
  - intros enc key Henc Hlen ->. apply Hiff. cbn [pk].
    subst spk. rewrite lenient_EncodeToString by done.
    by rewrite DecodeString_EncodeToString.
  - intros v E message sig Hv. apply Hiff in Hv as [_ Hlen].
    destruct (result (ed25519_Verify (pk v) message sig)) as [ok|text] eqn:Hr.
    + by exists ok.
    + exfalso. apply (proj1 (ed25519_Verify_panics (pk v) message sig)); [by eexists|].
      exact Hlen.
Qed.

Lemma NewVerifier_spec_witness :
  NewVerifier "MDEyMzQ1Njc4OT8+MDEyMzQ1Njc4OT8+MDEyMzQ1Njc="
  = inl (mkVerifier "0123456789?>0123456789?>01234567").
Proof.
  destruct (NewVerifier_spec "MDEyMzQ1Njc4OT8+MDEyMzQ1Njc4OT8+MDEyMzQ1Njc=")
    as (_ & _ & Hencoded & _).
  apply (Hencoded StdEncoding).
  - constructor.
  - reflexivity.
  - reflexivity.
Defined.

(** [ManifoldKey] and the key of the tests are valid. *)
Example NewVerifier_ManifoldKey :
  (exists v, NewVerifier ManifoldKey = inl v)
  /\ (exists v, NewVerifier dummyKey = inl v)
  /\ NewVerifier "not a key" = inr ErrInvalidPublicKey.
Proof. repeat split; try eexists; vm_compute; reflexivity. Qed.

(** ** Verification of a request *)

Section Verification.
Context `{GoRuntime} `{Ed25519}.

(** C5: [Verify] checks, in this order and stopping at the first failure,
    that [X-Signature] is present (400 "Missing X-Signature header"), that
    it parses (400 "Could not parse X-Signature header"), that
    [X-Signed-Headers] is present and not empty (400 "Missing
    X-Signed-Headers header") and that [Date] parses as RFC 3339 (400
    "Unable to read request date"); the skew check, the canonical form and
    the validation of the chain come only after these four. *)
Theorem Verify_fail_fast (v : Verifier) (req : Request) (body : Reader) :
  let hdr := Request_Header req in
  let sigHeader := Header_Get hdr "X-Signature" in
  (sigHeader = "" ->
     Verify v req body = reject 400 "Missing X-Signature header")
  /\ (forall err,
        sigHeader ≠ "" -> ParseSignature sigHeader = inr err ->
        Verify v req body = reject 400 "Could not parse X-Signature header")
  /\ (forall sig,
        sigHeader ≠ "" -> ParseSignature sigHeader = inl sig ->
        Header_Get hdr "X-Signed-Headers" = "" ->
        Verify v req body = reject 400 "Missing X-Signed-Headers header")
  /\ (forall sig,
        sigHeader ≠ "" -> ParseSignature sigHeader = inl sig ->
        Header_Get hdr "X-Signed-Headers" ≠ "" ->
        time_Parse_RFC3339 (Header_Get hdr "Date") = None ->
        Verify v req body = reject 400 "Unable to read request date")
  /\ (forall sig rt,
        sigHeader ≠ "" -> ParseSignature sigHeader = inl sig ->
        Header_Get hdr "X-Signed-Headers" ≠ "" ->
        time_Parse_RFC3339 (Header_Get hdr "Date") = Some rt ->
        Verify v req body
        = if skew_too_great rt then reject 400 "Request time skew is too great"
          else match (Canonize req body).2 with
               | Some _ => reject 400 "Unable to read request body"
               | None => Validate sig (pk v) (Canonize req body).1
               end)
  /\ ((exists sig rt,
         sigHeader ≠ "" /\ ParseSignature sigHeader = inl sig
         /\ Header_Get hdr "X-Signed-Headers" ≠ ""
         /\ time_Parse_RFC3339 (Header_Get hdr "Date") = Some rt)
      \/ exists text,
           text ∈ ["Missing X-Signature header"; "Could not parse X-Signature header";
                   "Missing X-Signed-Headers header"; "Unable to read request date"]
           /\ Verify v req body = reject 400 text).
Proof.
  intros hdr sigHeader. unfold Verify, reject, skew_too_great.
  fold hdr. fold sigHeader.
  destruct (decide (sigHeader = "")) as [Hs|Hs].
  { repeat split; try done. right. eexists. split; [|done]. do 0 right. left. }
  destruct (ParseSignature sigHeader) as [sig|err] eqn:Hp.
  2:{ repeat split; try done. right. eexists. split; [|done]. do 1 right. left. }
  destruct (decide (Header_Get hdr "X-Signed-Headers" = "")) as [Hl|Hl].
  { repeat split; try done. right. eexists. split; [|done]. do 2 right. left. }
  destruct (time_Parse_RFC3339 (Header_Get hdr "Date")) as [rt|] eqn:Hd.
  2:{ repeat split; try done. right. eexists. split; [|done]. do 3 right. left. }
  repeat split; try done.
  - intros sig' rt' _ [= <-] _ [= <-].
    destruct (Canonize req body) as [b [err|]]; cbn [fst snd]; repeat case_match; done.
  - left. by exists sig, rt.
Qed.

Lemma Verify_trace v req body :
  Forall (fun e => is_verify_event e = true) (trace (Verify v req body)).
Proof.
  unfold Verify.
  repeat case_match; try apply Validate_trace; cbn; constructor.
Qed.

Lemma filter_verify_events (P : event -> bool) (t : list event) :
  (forall e, is_verify_event e = true -> P e = false) ->
  Forall (fun e => is_verify_event e = true) t ->
  filter (fun e => P e = true) t = [].
Proof.
  intros HP. induction 1 as [|e t He _ IH]; [done|].
  rewrite filter_cons, IH. rewrite decide_False; [done|].
  rewrite (HP e He). done.
Qed.

(** [Verify] writes no response and calls no handler. *)
Lemma Verify_no_response v req body :
  response_events (trace (Verify v req body)) = []
  /\ next_events (trace (Verify v req body)) = [].
Proof.
  split; apply filter_verify_events; try apply Verify_trace; by intros [].
Qed.

End Verification.

Lemma Verify_fail_fast_witness :
  let H := ascii_runtime clock_2026 in
  let req :=
    mkRequest "GET" (mkURL "/" "" "" "")
      (<["Date" := ["yesterday"]]>
         (<["X-Signed-Headers" := ["date"]]> (<["X-Signature" := ["AA AA AA"]]> ∅)))
      "" (bytes_NewReader "") in
  @Verify H x_crypto (mkVerifier "") req (Body req)
  = reject 400 "Unable to read request date".
Proof.
  intros H req.
  destruct (@Verify_fail_fast H x_crypto (mkVerifier "") req (Body req))
    as (_ & _ & _ & Hdate & _).
  apply (Hdate (mkSignature (String "000" "") (String "000" "") (String "000" "")));
    vm_compute; congruence.
Defined.

(** ** The skew check *)

Lemma neg64_minInt64 : neg64 minInt64 = minInt64.
Proof. reflexivity. Qed.

Lemma neg64_in_range d : minInt64 < d <= maxInt64 -> neg64 d = - d.
Proof.
  unfold neg64, wrap64, minInt64, maxInt64. intros Hd.
  rewrite Z.mod_small; lia.
Qed.

Lemma time_Since_int64 now rt : minInt64 <= time_Since now rt <= maxInt64.
Proof.
  unfold time_Since, minInt64, maxInt64. repeat case_match; lia.
Qed.

(** With the clock reading [now], a date is refused for its skew exactly
    when it is more than the permitted skew away from [now] and less than
    2^63 nanoseconds after it: from there on [time.Since] gives the
    smallest [Duration], and its negation is that same negative number. *)
Lemma skew_too_great_clock now rt :
  @skew_too_great (ascii_runtime now) rt = true
  <-> Z.abs (now - rt) > PermittedTimeSkew /\ minInt64 < now - rt.
Proof.
  unfold skew_too_great. cbn [timeSince ascii_runtime].
  unfold time_Since, PermittedTimeSkew, time_Minute.
  destruct (Z.ltb_spec (now - rt) minInt64) as [Hlo|Hlo].
  - change (minInt64 <? 0) with true. cbn match. rewrite neg64_minInt64.
    unfold minInt64 in *. split; [done | lia].
  - destruct (Z.ltb_spec maxInt64 (now - rt)) as [Hhi|Hhi].
    + unfold minInt64, maxInt64 in *. split; [lia | done].
    + destruct (decide (now - rt = minInt64)) as [He|Hne].
      * rewrite He. change (minInt64 <? 0) with true. cbn match.
        rewrite neg64_minInt64. unfold minInt64. split; [done | lia].
      * destruct (Z.ltb_spec (now - rt) 0) as [Hneg|Hpos].
        -- rewrite neg64_in_range by (unfold minInt64, maxInt64 in *; lia).
           unfold minInt64 in *. rewrite Z.gtb_gt. lia.
        -- unfold minInt64 in *. rewrite Z.gtb_gt. lia.
Qed.

(** A date exactly five minutes old or five minutes ahead passes; a
    nanosecond more and it does not. *)
Lemma skew_boundary now :
  @skew_too_great (ascii_runtime now) (now - PermittedTimeSkew) = false
  /\ @skew_too_great (ascii_runtime now) (now + PermittedTimeSkew) = false
  /\ @skew_too_great (ascii_runtime now) (now - PermittedTimeSkew - 1) = true
  /\ @skew_too_great (ascii_runtime now) (now + PermittedTimeSkew + 1) = true.
Proof.
  repeat split.
  - apply not_true_is_false. rewrite skew_too_great_clock.
    unfold PermittedTimeSkew, time_Minute, minInt64. lia.
  - apply not_true_is_false. rewrite skew_too_great_clock.
    unfold PermittedTimeSkew, time_Minute, minInt64. lia.
  - rewrite skew_too_great_clock. unfold PermittedTimeSkew, time_Minute, minInt64. lia.
  - rewrite skew_too_great_clock. unfold PermittedTimeSkew, time_Minute, minInt64. lia.
Qed.

(** A date 2^63 nanoseconds or more ahead of the clock is not refused. *)
Lemma skew_far_future now rt :
  now - rt <= minInt64 -> @skew_too_great (ascii_runtime now) rt = false.
Proof.
  intros Hfar. apply not_true_is_false. rewrite skew_too_great_clock. lia.
Qed.

(** C6, where the code departs from it: the clock reads 2026-11-02 and the
    request is dated 2400-01-01, which is more than 2^63 nanoseconds
    ahead; the skew check lets it through, and the verdict is the one of
    the signature chain. *)
Theorem Verify_far_future_date :
  strict_Parse_RFC3339 "2400-01-01T00:00:00Z" = Some 13569465600000000000
  /\ Z.abs (clock_2026 - 13569465600000000000) > PermittedTimeSkew
  /\ @skew_too_great (ascii_runtime clock_2026) 13569465600000000000 = false
  /\ exists v,
       NewVerifier ManifoldKey = inl v
       /\ result (@Verify (ascii_runtime clock_2026) x_crypto v
                    far_future_request (Body far_future_request))
          = Returns (Some (error_Error
              (mkError 401 "Request Public Key was not endorsed by Manifold"))).
Proof.
  split; [by vm_compute|]. split; [by vm_compute|].
  split; [apply skew_far_future; by vm_compute|].
  eexists. split; [by vm_compute|].
  by vm_compute.
Qed.

(** ** The middleware *)

Section Middleware.
Context `{GoRuntime} `{Ed25519}.

(** [Respond] returns, having written the response. *)
Lemma Respond_run (e : Error) : Respond e = mkRun (Returns tt) (error_response e).
Proof. reflexivity. Qed.

(** The run of the middleware on a body that cannot be read, and on one
    that can: the verification of the request that holds a copy of the
    bytes, then the reply, then the deferred [Close]. *)
Lemma Negroni_read_error (v : Verifier) (req : Request) (err : error) :
  rd_err (Body req) = Some err ->
  Negroni v req = Respond (mkError 400 "Could not ready body from request").
Proof.
  intros Hread. destruct req as [m u h host [d e]]. cbn in Hread. subst e.
  reflexivity.
Qed.

Lemma Negroni_read (v : Verifier) (req : Request) :
  let b := rd_data (Body req) in
  let req' := set_Body req (bytes_NewReader b) in
  rd_err (Body req) = None ->
  Negroni v req
  = defer (emit BodyClose)
      (err ← Verify v req' (bytes_NewReader b); Negroni_reply err req').
Proof.
  intros b req' Hread. subst b req'.
  destruct req as [m u h host [d e]]. cbn in Hread. subst e.
  reflexivity.
Qed.

Lemma Negroni_unfold (v : Verifier) (req : Request) :
  let b := rd_data (Body req) in
  let req' := set_Body req (bytes_NewReader b) in
  let verification := Verify v req' (bytes_NewReader b) in
  rd_err (Body req) = None ->
  Negroni v req
  = match result verification with
    | Returns (Some (error_Error e)) =>
        mkRun (Returns tt) (trace verification ++ error_response e ++ [BodyClose])
    | Returns (Some (error_other _)) =>
        mkRun (Returns tt)
          (trace verification
           ++ error_response
                (mkError 401 "Could not validate authenticity of the request")
           ++ [BodyClose])
    | Returns None => mkRun (Returns tt) (trace verification ++ [Next req'] ++ [BodyClose])
    | Panics text => mkRun (Panics text) (trace verification ++ [BodyClose])
    end.
Proof.
  intros b req' verification Hread.
  rewrite (Negroni_read v req Hread).
  fold b. fold req'. fold verification.
  unfold defer, emit, mbind, run_bind, Negroni_reply. cbn [result trace].
  destruct (result verification) as [[[e|text]|]|text]; cbn [result trace];
    by rewrite <- ?app_assoc.
Qed.

Lemma response_events_app t1 t2 :
  response_events (t1 ++ t2) = response_events t1 ++ response_events t2.
Proof. apply filter_app. Qed.

Lemma next_events_app t1 t2 :
  next_events (t1 ++ t2) = next_events t1 ++ next_events t2.
Proof. apply filter_app. Qed.

(** C10: the middleware reads the body of the request to its end, which
    leaves that reader with nothing to yield, and verifies the request
    whose body is a new reader of the bytes read.  When verification ends
    with an [*Error], it writes that one response (the two headers, the
    error's status code, the JSON body whose length is the Content-Length)
    and does not call the next handler; the reply to an error of another
    type is the 401 "Could not validate authenticity of the request", written
    the same way; when verification returns nil the middleware writes
    nothing and calls the next handler once, with the request whose body,
    read to its end, gives all the bytes of the original body.  A body
    that cannot be read is answered by a 400. *)
Theorem Negroni_outcomes (v : Verifier) (req : Request) :
  let b := rd_data (Body req) in
  let req' :=
    mkRequest (Method req) (Request_URL req) (Request_Header req) (Host req)
      (bytes_NewReader b) in
  let verification := Verify v req' (bytes_NewReader b) in
  let out := Negroni v req in
  (rd_err (Body req) = None ->
   out = defer (emit BodyClose) (err ← verification; Negroni_reply err req')
   /\ (forall e,
      result verification = Returns (Some (error_Error e)) ->
      result out = Returns tt
      /\ response_events (trace out) = error_response e
      /\ next_events (trace out) = [])
   /\ (result verification = Returns None ->
      result out = Returns tt
      /\ response_events (trace out) = []
      /\ next_events (trace out) = [Next req']))
  /\ (forall err,
      rd_err (Body req) = Some err ->
      out = Respond (mkError 400 "Could not ready body from request"))
  /\ (forall text r,
      Negroni_reply (Some (error_other text)) r
      = mkRun (Returns tt)
          (error_response
             (mkError 401 "Could not validate authenticity of the request")))
  /\ (Buffer_ReadFrom (Body req')).1 = (b, None)
  /\ (Buffer_ReadFrom (Buffer_ReadFrom (Body req)).2).1 = ("", rd_err (Body req)).
Proof.
  intros b req' verification out.
  change req' with (set_Body req (bytes_NewReader b)) in *.
  clear req'. set (req' := set_Body req (bytes_NewReader b)) in *.
  destruct (Verify_no_response v req' (bytes_NewReader b)) as [Hresp Hnext].
  fold verification in Hresp, Hnext.
  split; [|split; [|split; [|split]]].
  - intros Hread. split; [exact (Negroni_read v req Hread)|].
    subst out. rewrite (Negroni_unfold v req Hread).
    fold b. fold req'. fold verification.
    split.
    + intros e ->. cbn [result trace].
      by rewrite !response_events_app, !next_events_app, Hresp, Hnext.
    + intros ->. cbn [result trace].
      by rewrite !response_events_app, !next_events_app, Hresp, Hnext.
  - intros err Herr. exact (Negroni_read_error v req err Herr).
  - reflexivity.
  - reflexivity.
  - reflexivity.
Qed.

End Middleware.

(** "Good signature" and "old request" of [TestWrap]: one second after the
    date of the test request, the handler is called with a request whose
    body holds the bytes of the test body again; thirty minutes after it,
    the middleware answers 400 with the skew message. *)
Lemma Negroni_outcomes_witness :
  (let H := ascii_runtime (test_date + time_Second) in
   let out := @Negroni H x_crypto test_verifier (newReq good_signature) in
   result out = Returns tt
   /\ response_events (trace out) = []
   /\ next_events (trace out)
      = [Next (set_Body (newReq good_signature) (bytes_NewReader test_body))])
  /\ (let H := ascii_runtime (test_date + 30 * time_Minute) in
      let out := @Negroni H x_crypto (mkVerifier "") (newReq good_signature) in
      response_events (trace out)
      = [SetHeader "Content-Type" "application/json";
         SetHeader "Content-Length" "44";
         WriteHeader 400;
         ResponseWrite ("{" +:+ DQUOTE +:+ "message" +:+ DQUOTE +:+ ":" +:+ DQUOTE
                        +:+ "Request time skew is too great" +:+ DQUOTE +:+ "}")]
      /\ next_events (trace out) = []).
Proof.
  split.
  - intros H out.
    destruct (@Negroni_outcomes H x_crypto test_verifier (newReq good_signature))
      as [Hread _].
    destruct (Hread eq_refl) as (_ & _ & Hnil).
    apply Hnil. vm_compute. reflexivity.
  - intros H out.
    destruct (@Negroni_outcomes H x_crypto (mkVerifier "") (newReq good_signature))
      as [Hread _].
    destruct (Hread eq_refl) as (_ & Herror & _).
    destruct (Herror (mkError 400 "Request time skew is too great"))
      as (_ & Hresp & Hnext).
    + vm_compute. reflexivity.
    + split; [exact Hresp | exact Hnext].
Defined.

(** ** The package on the requests of its tests *)

Example NewVerifier_dummyKey : NewVerifier dummyKey = inl test_verifier.
Proof. vm_compute. reflexivity. Qed.

(** [ExampleVerifier_Verify], with [timeSince] giving one second as the
    tests set it: "Signature is ok!". *)
Example Verify_test_request :
  result (@Verify (ascii_runtime (test_date + time_Second)) x_crypto test_verifier
            (newReq good_signature) (bytes_NewReader test_body))
  = Returns None.
Proof. vm_compute. reflexivity. Qed.

Example Verify_bad_signature :
  result (@Verify (ascii_runtime (test_date + time_Second)) x_crypto test_verifier
            (newReq bad_signature) (bytes_NewReader test_body))
  = Returns (Some (error_Error
      (mkError 401 "Request was not signed by included Public Key"))).
Proof. vm_compute. reflexivity. Qed.

(** "Good signature" and "Bad signature" of [TestWrap]: the handler is
    called for the first; for the second it is not, and the response is a
    401 with the message the test expects. *)
Example Wrap_test_requests :
  let H := ascii_runtime (test_date + time_Second) in
  next_events (trace (@Wrap H x_crypto test_verifier (newReq good_signature)))
  = [Next (newReq good_signature)]
  /\ next_events (trace (@Wrap H x_crypto test_verifier (newReq bad_signature))) = []
  /\ response_events (trace (@Wrap H x_crypto test_verifier (newReq bad_signature)))
     = [SetHeader "Content-Type" "application/json";
        SetHeader "Content-Length" "59";
        WriteHeader 401;
        ResponseWrite ("{" +:+ DQUOTE +:+ "message" +:+ DQUOTE +:+ ":" +:+ DQUOTE
          +:+ "Request was not signed by included Public Key" +:+ DQUOTE +:+ "}")].
Proof.
  intros H. subst H. unfold Wrap.
  pose proof (@Verify_no_response (ascii_runtime (test_date + time_Second)) x_crypto
                test_verifier (newReq good_signature) (bytes_NewReader test_body))
    as [_ Hgood].
  pose proof (@Verify_no_response (ascii_runtime (test_date + time_Second)) x_crypto
                test_verifier (newReq bad_signature) (bytes_NewReader test_body))
    as [Hbad Hbad'].
  rewrite !Negroni_unfold by reflexivity. cbv zeta.
  change (set_Body (newReq good_signature) _) with (newReq good_signature).
  change (set_Body (newReq bad_signature) _) with (newReq bad_signature).
  change (rd_data (Body (newReq good_signature))) with test_body.
  change (rd_data (Body (newReq bad_signature))) with test_body.
  rewrite Verify_test_request, Verify_bad_signature. cbn [trace].
  revert Hgood Hbad Hbad'.
  generalize (trace (@Verify (ascii_runtime (test_date + time_Second)) x_crypto
                       test_verifier (newReq good_signature) (bytes_NewReader test_body))).
  generalize (trace (@Verify (ascii_runtime (test_date + time_Second)) x_crypto
                       test_verifier (newReq bad_signature) (bytes_NewReader test_body))).
  intros tbad tgood Hgood Hbad Hbad'.
  rewrite !response_events_app, !next_events_app, Hgood, Hbad, Hbad'.
  repeat split.
Qed.

(** * Further properties *)

(** ** Splitting and joining *)

Lemma Split_piece a rest sep :
  sep ∉ list_ascii_of_string a ->
  strings_Split (a +:+ String sep rest) sep = a :: strings_Split rest sep.
Proof.
  induction a as [|c a IH]; intros Hsep; cbn.
  - by rewrite decide_True.
  - cbn in Hsep. apply not_elem_of_cons in Hsep as [Hc Ha].
    rewrite decide_False by done. by rewrite IH.
Qed.

Lemma Split_whole a sep :
  sep ∉ list_ascii_of_string a -> strings_Split a sep = [a].
Proof.
  induction a as [|c a IH]; intros Hsep; cbn; [done|].
  cbn in Hsep. apply not_elem_of_cons in Hsep as [Hc Ha].
  rewrite decide_False by done. by rewrite IH.
Qed.

Lemma Split_not_nil s sep : strings_Split s sep ≠ [].
Proof.
  induction s as [|c s IH]; cbn; [done|].
  destruct (decide (c = sep)); [done|].
  by destruct (strings_Split s sep).
Qed.

(** There is one more piece than there are separators. *)
Lemma Split_length s sep :
  length (strings_Split s sep) = S (strings_Count s sep).
Proof.
  induction s as [|c s IH]; cbn; [done|].
  destruct (decide (c = sep)); cbn.
  - by rewrite IH.
  - pose proof (Split_not_nil s sep).
    destruct (strings_Split s sep); [done|]. exact IH.
Qed.

(** Only the empty string splits into one empty piece. *)
Lemma Split_empty s sep : strings_Split s sep = [""] <-> s = "".
Proof.
  split; [|by intros ->].
  destruct s as [|c s]; [done|]. cbn.
  destruct (decide (c = sep)).
  - pose proof (Split_not_nil s sep). intros [= Hs]. done.
  - by destruct (strings_Split s sep).
Qed.

Lemma Join_cons c p ps sep :
  strings_Join (String c p :: ps) sep = String c (strings_Join (p :: ps) sep).
Proof. by destruct ps. Qed.

(** Joining the pieces with the separator gives the string back. *)
Lemma Join_Split s sep :
  strings_Join (strings_Split s sep) (String sep "") = s.
Proof.
  induction s as [|c s IH]; [done|]. cbn [strings_Split].
  pose proof (Split_not_nil s sep) as Hne.
  destruct (decide (c = sep)) as [->|Hc].
  - destruct (strings_Split s sep) as [|p ps]; [done|].
    change (strings_Join ("" :: p :: ps) (String sep ""))
      with (String sep (strings_Join (p :: ps) (String sep ""))).
    by rewrite IH.
  - destruct (strings_Split s sep) as [|p ps]; [done|].
    by rewrite Join_cons, IH.
Qed.

(** ** A signature chain written and read again *)

Lemma encode_not_space v :
  0 <= v < 64 -> encode_byte RawURLEncoding v ≠ " "%char.
Proof. intros Hv. each_sextet v. Qed.

Lemma EncodeToString_no_space src :
  " "%char ∉ list_ascii_of_string (EncodeToString RawURLEncoding src).
Proof.
  induction src as [|c0|c0 c1|c0 c1 c2 rest IH] using string_ind3;
    cbn [EncodeToString list_ascii_of_string]; unfold padding;
    cbn [padChar RawURLEncoding list_ascii_of_string];
    repeat (apply not_elem_of_cons; split;
            [apply not_eq_sym, encode_not_space, sextet_range|]);
    [apply not_elem_of_nil .. | exact IH].
Qed.

(** X1: a signature chain written by [String] is read back by
    [ParseSignature] as the same chain. *)
Theorem ParseSignature_String (s : Signature) :
  ParseSignature (Signature_String s) = inl s.
Proof.
  unfold ParseSignature, Signature_String, Value_String.
  cbn [String.append].
  rewrite !Split_piece, Split_whole by apply EncodeToString_no_space.
  cbn [length]. rewrite decide_False by (intros Hn; by apply Hn).
  cbn [lookup_total list_lookup_total].
  unfold base64_NewFromString. rewrite !DecodeString_EncodeToString.
  by destruct s.
Qed.

(** X2: [ParseSignature] answers with its own 400 exactly for the
    headers that do not have two spaces; tabs, or spaces at the ends or
    doubled, are not made up for. *)
Theorem ParseSignature_spaces (value : string) :
  ParseSignature value
  = inr (error_Error (mkError 400 "Could not parse Signature chain"))
  <-> strings_Count value " " ≠ 2%nat.
Proof.
  unfold ParseSignature. cbv zeta.
  pose proof (Split_length value " ") as Hlen.
  destruct (decide (length (strings_Split value " ") ≠ 3%nat)) as [Hn|Hn].
  - split; [intros _; lia | done].
  - split; [|lia].
    unfold base64_NewFromString, CorruptInputError.
    repeat case_match; congruence.
Qed.

(** ** What the canonical form depends on *)

Section Canonical_invariance.
Context `{GoRuntime}.

Lemma signed_header_names_last req : "x-signed-headers" ∈ signed_header_names req.
Proof. unfold signed_header_names. apply elem_of_app. right. by left. Qed.

(** X3: the canonical form reads the header map only at the keys of the
    signed names, [Host] apart: requests that have the same values there,
    and differ by other headers or by an entry [Host] of the map, have the
    same canonical form. *)
Theorem Canonize_signed_headers_only (req : Request) (hdr : Header) (body : Reader) :
  (forall name,
     name ∈ signed_header_names req -> CanonicalHeaderKey name ≠ "Host" ->
     Header_index hdr (CanonicalHeaderKey name)
     = Header_index (Request_Header req) (CanonicalHeaderKey name)) ->
  Canonize (set_Header req hdr) body = Canonize req body.
Proof.
  intros Hsame. rewrite !Canonize_pieces.
  assert (Hnames : signed_header_names (set_Header req hdr) = signed_header_names req).
  { unfold signed_header_names. rewrite <- !Header_Get_lower.
    unfold Header_Get. cbn [Request_Header set_Header].
    rewrite (Hsame "x-signed-headers");
      [done | apply signed_header_names_last | by vm_compute]. }
  assert (Hlines : header_section (set_Header req hdr) = header_section req).
  { unfold header_section. rewrite Hnames. f_equal.
    apply map_ext_in. intros name Hin. apply list_elem_of_In in Hin.
    unfold header_line, occurrences. cbn [Request_Header set_Header].
    destruct (decide (EqualFold name "host")) as [Hhost|Hhost]; [done|].
    rewrite Hsame; [done | done |].
    intros Hk. by apply CanonicalHeaderKey_Host in Hk. }
  by rewrite Hlines.
Qed.

(** X4: the order of the segments of the raw query does not matter:
    a request whose query has the same segments in another order has the
    same canonical form. *)
Theorem Canonize_query_order (req : Request) (q : string) (body : Reader) :
  strings_Split q "&" ≡ₚ strings_Split (RawQuery (Request_URL req)) "&" ->
  EscapedPath (Request_URL (set_RawQuery req q)) = EscapedPath (Request_URL req) ->
  Canonize (set_RawQuery req q) body = Canonize req body.
Proof.
  intros Hperm Hpath. rewrite !Canonize_pieces. f_equal.
  change (header_section (set_RawQuery req q)) with (header_section req).
  f_equal. unfold request_line. rewrite Hpath.
  cbn [Method Request_URL RawQuery set_RawQuery].
  f_equal. f_equal.
  assert (Hsort : sort_Strings (strings_Split q "&")
                  = sort_Strings (strings_Split (RawQuery (Request_URL req)) "&")).
  { apply sort_Strings_unique; [|apply sort_Strings_sorted].
    by rewrite sort_Strings_perm. }
  rewrite Hsort.
  destruct (decide (q = "")) as [Hq|Hq];
    destruct (decide (RawQuery (Request_URL req) = "")) as [Hr|Hr]; try done.
  - exfalso. apply Hr.
    rewrite Hq in Hperm. cbn in Hperm.
    symmetry in Hperm. apply Permutation_singleton_r in Hperm.
    by apply Split_empty in Hperm.
  - exfalso. apply Hq.
    rewrite Hr in Hperm. cbn in Hperm.
    apply Permutation_singleton_r in Hperm.
    by apply Split_empty in Hperm.
Qed.

(** X5: a raw query whose segments are already in order is copied as
    it is after the question mark. *)
Theorem Canonize_sorted_query (req : Request) (body : Reader) :
  RawQuery (Request_URL req) ≠ "" ->
  StronglySorted String.le (strings_Split (RawQuery (Request_URL req)) "&") ->
  (Canonize req body).1
  = strings_ToLower (if decide (Method req = "") then "GET" else Method req)
    +:+ " " +:+ EscapedPath (Request_URL req)
    +:+ "?" +:+ RawQuery (Request_URL req)
    +:+ String LF (header_section req +:+ rd_data body).
Proof.
  intros Hq Hsorted. rewrite Canonize_pieces. cbn [fst].
  unfold request_line.
  destruct (decide (RawQuery (Request_URL req) = "")) as [Hempty|_]; [done|].
  rewrite <- (sort_Strings_unique _ _ (reflexivity _) Hsorted).
  rewrite Join_Split.
  by rewrite !app_assoc_s.
Qed.

(** X6: the body is appended as it is to a head that does not depend on
    it, and the error of [Canonize] is the one that ended the reading of
    the body, the bytes being returned all the same. *)
Theorem Canonize_body (req : Request) (body : Reader) :
  Canonize req body
  = ((Canonize req (bytes_NewReader "")).1 +:+ rd_data body, rd_err body).
Proof.
  rewrite !Canonize_pieces. cbn [fst rd_data bytes_NewReader].
  by rewrite app_nil_r_s, app_assoc_s.
Qed.

(** X7: a request with no [X-Signed-Headers] is canonized too: the list
    of names is the empty name and [x-signed-headers].  The line of the
    empty name has the values that the map holds under the empty key,
    none in a map without it; the line of [x-signed-headers] has no
    value. *)
Theorem Canonize_no_signed_headers (req : Request) (body : Reader) :
  Header_index (Request_Header req) "X-Signed-Headers" = [] ->
  (Canonize req body).1
  = request_line req (sort_Strings (strings_Split (RawQuery (Request_URL req)) "&"))
    +:+ String LF
          (strings_ToLower "" +:+ ": "
           +:+ strings_Join
                 (map strings_TrimSpace (Header_index (Request_Header req) "")) ", "
           +:+ String LF
             (strings_ToLower "x-signed-headers" +:+ ": " +:+ String LF
                (rd_data body))).
Proof.
  intros Hlist. rewrite Canonize_pieces. cbn [fst]. f_equal. f_equal.
  unfold header_section, signed_header_names, Header_Get.
  change (CanonicalHeaderKey "X-Signed-Headers") with "X-Signed-Headers".
  rewrite Hlist. cbn [strings_Split app map concat_strings].
  unfold header_line, occurrences.
  rewrite !decide_False by (by vm_compute).
  change (CanonicalHeaderKey "") with "".
  change (CanonicalHeaderKey "x-signed-headers") with "X-Signed-Headers".
  rewrite Hlist. cbn [map strings_Join].
  rewrite !app_assoc_s. reflexivity.
Qed.

End Canonical_invariance.

(** ** When the chain makes [ed25519.Verify] panic *)

Section Chain_panics.
Context `{Ed25519}.

(** X8: [Validate] panics in two cases only: the master key is not of 32
    bytes; or the endorsement is a signature by the master key of an
    ephemeral key that is not of 32 bytes. *)
Theorem Validate_panics_iff (s : Signature) (masterPubKey b : string) :
  (exists text, result (Validate s masterPubKey b) = Panics text)
  <-> String.length masterPubKey ≠ PublicKeySize
      \/ (result (ed25519_Verify masterPubKey (PublicKey s) (Endorsement s))
          = Returns true
          /\ String.length (PublicKey s) ≠ PublicKeySize).
Proof.
  rewrite Validate_unfold.
  pose proof (ed25519_Verify_panics masterPubKey (PublicKey s) (Endorsement s)) as P1.
  pose proof (ed25519_Verify_panics (PublicKey s) b (Value s)) as P2.
  destruct (result (ed25519_Verify masterPubKey _ _)) as [[|]|text1].
  - destruct (result (ed25519_Verify (PublicKey s) _ _)) as [[|]|text2]; cbn [result].
    1, 2: split; [by intros [? ?]|];
          intros [Hm|[_ Hk]]; [apply P1 in Hm as [? ?] | apply P2 in Hk as [? ?]]; done.
    split; [|by eexists]. intros _. right. split; [done|]. apply P2. by eexists.
  - cbn [result]. split; [by intros [? ?]|].
    intros [Hm|[? _]]; [|done]. apply P1 in Hm. by destruct Hm.
  - cbn [result]. split; [|by eexists]. intros _. left. apply P1. by eexists.
Qed.

Lemma ed25519_Verify_size publicKey message sig :
  String.length publicKey = PublicKeySize ->
  String.length sig ≠ SignatureSize ->
  result (ed25519_Verify publicKey message sig) = Returns false.
Proof.
  intros Hk Hs. unfold ed25519_Verify, mbind, run_bind, emit, panic, mret, run_ret.
  cbn. rewrite decide_False by (by intros ?).
  by rewrite bool_decide_eq_true_2.
Qed.

(** X9: a signature that is not of 64 bytes does not make [Validate]
    panic: with a master key of 32 bytes, such an endorsement gives the 401
    "not endorsed", whatever the ephemeral key; and after a good
    endorsement of a key of 32 bytes, such a payload signature gives the
    401 "not signed". *)
Theorem Validate_signature_sizes (s : Signature) (masterPubKey b : string) :
  String.length masterPubKey = PublicKeySize ->
  (String.length (Endorsement s) ≠ SignatureSize ->
   result (Validate s masterPubKey b)
   = Returns (Some (error_Error
       (mkError 401 "Request Public Key was not endorsed by Manifold"))))
  /\ (result (ed25519_Verify masterPubKey (PublicKey s) (Endorsement s)) = Returns true ->
      String.length (PublicKey s) = PublicKeySize ->
      String.length (Value s) ≠ SignatureSize ->
      result (Validate s masterPubKey b)
      = Returns (Some (error_Error
          (mkError 401 "Request was not signed by included Public Key")))).
Proof.
  intros Hm. rewrite Validate_unfold. split.
  - intros He. by rewrite ed25519_Verify_size.
  - intros -> Hk Hv. by rewrite ed25519_Verify_size.
Qed.

End Chain_panics.

(** ** The verdicts of [Verify] *)

Ltac in_list := first [ by left | right; in_list ].

Lemma NewVerifier_length publicKey v :
  NewVerifier publicKey = inl v -> String.length (pk v) = PublicKeySize.
Proof.
  unfold NewVerifier. destruct (base64_NewFromString _) as [pkv|]; [|done].
  destruct (decide (String.length pkv ≠ PublicKeySize)) as [Hne|He]; [done|].
  apply dec_stable in He. intros [= <-]. cbn [pk].
  rewrite <- He at 1. by rewrite substring_all.
Qed.

Lemma ParseSignature_empty : forall sig, ParseSignature "" ≠ inl sig.
Proof. done. Qed.

Section Verdicts_of_Verify.
Context `{GoRuntime} `{Ed25519}.

Ltac verdict :=
  right; right; eexists; (split; [|split; [|done]]); [in_list | done].

(** How a run of [Verify] ends. *)
Lemma Verify_result_cases v req body :
  (exists text, result (Verify v req body) = Panics text)
  \/ result (Verify v req body) = Returns None
  \/ exists e, e ∈ Verify_errors
       /\ (rd_err body = None -> e ≠ mkError 400 "Unable to read request body")
       /\ result (Verify v req body) = Returns (Some (error_Error e)).
Proof.
  unfold Verify.
  destruct (decide _); [verdict|].
  destruct (ParseSignature _) as [sig|]; [|verdict].
  destruct (decide _); [verdict|].
  destruct (time_Parse_RFC3339 _) as [rt|]; [|verdict].
  destruct (_ >? _); [verdict|].
  rewrite Canonize_pieces.
  destruct (rd_err body) as [err|];
    [verdict|].
  rewrite Validate_unfold.
  destruct (result (ed25519_Verify (pk v) _ _)) as [[|]|text1]; cbn [result].
  - destruct (result (ed25519_Verify (PublicKey sig) _ _)) as [[|]|text2]; cbn [result].
    + by right; left.
    + verdict.
    + left. by eexists.
  - verdict.
  - left. by eexists.
Qed.

(** X10: an error of [Verify] is always an [*Error] of the package, one
    of the six 400 of [Verify] or of the two 401 of [Validate]; an error of
    another type, such as the one of the base64 decoder, never comes out. *)
Theorem Verify_error_structured (v : Verifier) (req : Request) (body : Reader)
    (err : error) :
  result (Verify v req body) = Returns (Some err) ->
  exists e, err = error_Error e /\ e ∈ Verify_errors.
Proof.
  intros Hr.
  destruct (Verify_result_cases v req body) as [[text Ht]|[Hnil|(e & He & _ & Hres)]].
  - congruence.
  - congruence.
  - exists e. split; [congruence | done].
Qed.

(** X11: [Verify] returns nil exactly when the signature header parses,
    the list of signed headers is not empty, the date parses and passes the
    skew check, the body is read, the master key endorses the ephemeral
    key and the ephemeral key signed the canonical form. *)
Theorem Verify_accepts_iff (v : Verifier) (req : Request) (body : Reader) :
  let hdr := Request_Header req in
  result (Verify v req body) = Returns None
  <-> exists sig rt,
        ParseSignature (Header_Get hdr "X-Signature") = inl sig
        /\ Header_Get hdr "X-Signed-Headers" ≠ ""
        /\ time_Parse_RFC3339 (Header_Get hdr "Date") = Some rt
        /\ skew_too_great rt = false
        /\ (Canonize req body).2 = None
        /\ result (ed25519_Verify (pk v) (PublicKey sig) (Endorsement sig))
           = Returns true
        /\ result (ed25519_Verify (PublicKey sig) (Canonize req body).1 (Value sig))
           = Returns true.
Proof.
  intros hdr. unfold Verify, skew_too_great. fold hdr.
  destruct (decide (Header_Get hdr "X-Signature" = "")) as [Hs|Hs].
  { rewrite Hs. split; [done|]. intros (sig & rt & Hp & _).
    by apply ParseSignature_empty in Hp. }
  destruct (ParseSignature _) as [sig|err].
  2:{ split; [done|]. by intros (sig & rt & Hp & _). }
  destruct (decide (Header_Get hdr "X-Signed-Headers" = "")) as [Hl|Hl].
  { split; [done|]. by intros (sig' & rt & _ & Hl' & _). }
  destruct (time_Parse_RFC3339 _) as [rt|].
  2:{ split; [done|]. by intros (sig' & rt & _ & _ & Hd & _). }
  destruct (_ >? _) eqn:Hskew.
  { split; [done|]. intros (sig' & rt' & _ & _ & [= <-] & Hk & _). congruence. }
  destruct (Canonize req body) as [b [err|]]; cbn [fst snd].
  { split; [done|]. by intros (sig' & rt' & _ & _ & _ & _ & Hb & _). }
  rewrite Validate_unfold.
  destruct (result (ed25519_Verify (pk v) _ _)) as [[|]|text1] eqn:H1; cbn [result].
  - destruct (result (ed25519_Verify (PublicKey sig) _ _)) as [[|]|text2] eqn:H2; cbn [result].
    + split; [|done]. intros _. by exists sig, rt.
    + split; [done|]. intros (sig' & rt' & [= <-] & _ & _ & _ & _ & _ & H2'). congruence.
    + split; [done|]. intros (sig' & rt' & [= <-] & _ & _ & _ & _ & _ & H2'). congruence.
  - split; [done|]. intros (sig' & rt' & [= <-] & _ & _ & _ & _ & H1' & _). congruence.
  - split; [done|]. intros (sig' & rt' & [= <-] & _ & _ & _ & _ & H1' & _). congruence.
Qed.

(** X12: for a date that passed the four checks before, and unless
    [timeSince] gives the smallest [Duration], [Verify] answers with the 400
    "Request time skew is too great" exactly when the date is more than
    five minutes away from the clock, before or after. *)
Theorem Verify_skew_window (v : Verifier) (req : Request) (body : Reader)
    (sig : Signature) (rt : Z) :
  let hdr := Request_Header req in
  Header_Get hdr "X-Signature" ≠ "" ->
  ParseSignature (Header_Get hdr "X-Signature") = inl sig ->
  Header_Get hdr "X-Signed-Headers" ≠ "" ->
  time_Parse_RFC3339 (Header_Get hdr "Date") = Some rt ->
  minInt64 < timeSince rt ->
  (Verify v req body = reject 400 "Request time skew is too great"
   <-> Z.abs (timeSince rt) > PermittedTimeSkew).
Proof.
  intros hdr Hs Hp Hl Hd Hmin. unfold Verify, reject. fold hdr.
  rewrite decide_False by done. rewrite Hp.
  rewrite decide_False by done. rewrite Hd.
  assert (Habs : (if timeSince rt <? 0 then neg64 (timeSince rt) else timeSince rt)
                 = Z.abs (timeSince rt)).
  { destruct (Z.ltb_spec (timeSince rt) 0) as [Hneg|Hpos]; [|lia].
    rewrite neg64_in_range by (unfold maxInt64; lia). lia. }
  rewrite Habs.
  destruct (Z.abs (timeSince rt) >? PermittedTimeSkew) eqn:Hgt.
  - split; [|done]. intros _. by apply Z.gtb_gt.
  - split.
    + destruct (Canonize req body) as [b [err|]]; [done|].
      rewrite Validate_unfold. repeat case_match; done.
    + intros Hfar. apply Z.gtb_gt in Hfar. congruence.
Qed.

(** X13: with a verifier made by [NewVerifier], [Verify] panics only on a
    chain whose ephemeral key is not of 32 bytes and whose endorsement is
    nevertheless a signature of it by the master key. *)
Theorem Verify_panic_endorsed (publicKey : string) (v : Verifier) (req : Request)
    (body : Reader) (text : string) :
  NewVerifier publicKey = inl v ->
  result (Verify v req body) = Panics text ->
  exists sig,
    ParseSignature (Header_Get (Request_Header req) "X-Signature") = inl sig
    /\ result (ed25519_Verify (pk v) (PublicKey sig) (Endorsement sig)) = Returns true
    /\ String.length (PublicKey sig) ≠ PublicKeySize.
Proof.
  intros Hv. apply NewVerifier_length in Hv. unfold Verify.
  destruct (decide _); [done|].
  destruct (ParseSignature _) as [sig|]; [|done].
  destruct (decide _); [done|].
  destruct (time_Parse_RFC3339 _) as [rt|]; [|done].
  destruct (_ >? _); [done|].
  destruct (Canonize req body) as [b [err|]]; [done|].
  rewrite Validate_unfold.
  pose proof (ed25519_Verify_panics (pk v) (PublicKey sig) (Endorsement sig)) as P1.
  pose proof (ed25519_Verify_panics (PublicKey sig) b (Value sig)) as P2.
  destruct (result (ed25519_Verify (pk v) _ _)) as [[|]|text1] eqn:Hend; cbn [result].
  - destruct (result (ed25519_Verify (PublicKey sig) _ _)) as [[|]|text2];
      cbn [result]; [done | done |].
    intros _. exists sig. split; [done|]. split; [done|]. apply P2. by eexists.
  - done.
  - intros _. exfalso. apply (proj1 P1); [by eexists | done].
Qed.

End Verdicts_of_Verify.

(** ** The handlers

    [Wrap] and [WrapFunc] give the handler that runs the middleware of
    [Negroni] with the wrapped handler for next. *)

Lemma WrapFunc_Negroni `{GoRuntime} `{Ed25519} (v : Verifier) (req : Request) :
  WrapFunc v req = Middleware_ServeHTTP (Negroni v) req
  /\ Wrap v req = Middleware_ServeHTTP (Negroni v) req.
Proof. done. Qed.

(** ** What the middleware answers, and the body it closes *)

Lemma verify_events_no_close t :
  Forall (fun e => is_verify_event e = true) t -> BodyClose ∉ t.
Proof.
  intros Hall Hin. rewrite Forall_forall in Hall. by apply Hall in Hin.
Qed.

Section Middleware_answers.
Context `{GoRuntime} `{Ed25519}.

Lemma error_response_no_close (e : Error) : BodyClose ∉ error_response e.
Proof.
  unfold error_response.
  repeat (apply not_elem_of_cons; split; [done|]). apply not_elem_of_nil.
Qed.

(** X14: a response of the middleware is always the one of an error of
    [Negroni_errors]: the 400 for a body that could not be read, or an
    error of [Verify] other than the one for the body, which [Verify] reads
    from memory.  The 401 "Could not validate authenticity of the request"
    is not among them: [Verify] returns no error for which the middleware
    would write it. *)
Theorem Negroni_responses (v : Verifier) (req : Request) :
  let out := Negroni v req in
  (response_events (trace out) = []
   \/ exists e, e ∈ Negroni_errors /\ response_events (trace out) = error_response e)
  /\ (forall text,
        result (Verify v (set_Body req (bytes_NewReader (rd_data (Body req))))
                  (bytes_NewReader (rd_data (Body req))))
        ≠ Returns (Some (error_other text)))
  /\ (mkError 401 "Could not validate authenticity of the request" ∉ Negroni_errors)
  /\ (mkError 400 "Unable to read request body" ∉ Negroni_errors).
Proof.
  intros out. subst out.
  set (b := rd_data (Body req)).
  set (req' := set_Body req (bytes_NewReader b)).
  destruct (Verify_no_response v req' (bytes_NewReader b)) as [Hresp _].
  pose proof (Verify_result_cases v req' (bytes_NewReader b)) as Hcases.
  split; [|split; [|split]].
  - destruct (rd_err (Body req)) as [err|] eqn:Hread.
    + right. eexists. split; [by left|].
      by rewrite (Negroni_read_error v req err Hread), Respond_run.
    + rewrite (Negroni_unfold v req Hread). fold b. fold req'.
      destruct Hcases as [[text ->]|[->|(e & He & Hbody & ->)]]; cbn [result trace];
        rewrite !response_events_app, Hresp.
      * by left.
      * by left.
      * right. exists e. split; [|done].
        specialize (Hbody eq_refl). unfold Verify_errors in He.
        repeat (apply elem_of_cons in He as [->|He]; [first [in_list | done]|]).
        by apply elem_of_nil in He.
  - intros text Htext.
    destruct Hcases as [[text' Hr]|[Hr|(e & _ & _ & Hr)]]; congruence.
  - unfold Negroni_errors.
    repeat (apply not_elem_of_cons; split; [done|]). apply not_elem_of_nil.
  - unfold Negroni_errors.
    repeat (apply not_elem_of_cons; split; [done|]). apply not_elem_of_nil.
Qed.

(** X15: once the body is read, the middleware closes it, once and as its
    last call, whether it answers, calls the next handler or panics; it
    does not close a body that it could not read. *)
Theorem Negroni_closes_body (v : Verifier) (req : Request) :
  (rd_err (Body req) = None ->
   exists t, trace (Negroni v req) = t ++ [BodyClose] /\ BodyClose ∉ t)
  /\ (rd_err (Body req) ≠ None -> BodyClose ∉ trace (Negroni v req)).
Proof.
  split.
  - intros Hread. rewrite (Negroni_unfold v req Hread). cbv zeta.
    set (verification := Verify v _ _).
    assert (Hv : BodyClose ∉ trace verification)
      by apply verify_events_no_close, Verify_trace.
    destruct (result verification) as [[[e|text]|]|text]; cbn [trace];
      rewrite ?app_assoc; eexists; (split; [done|]);
      rewrite ?not_elem_of_app; repeat split;
      try done; try apply error_response_no_close.
    apply not_elem_of_cons. split; [done | apply not_elem_of_nil].
  - intros Hread.
    destruct (rd_err (Body req)) as [err|] eqn:Herr; [|done].
    rewrite (Negroni_read_error v req err Herr), Respond_run.
    apply error_response_no_close.
Qed.

End Middleware_answers.

(** ** What [NewVerifier] does not mind *)

Lemma string_map_app f a b :
  string_map f (a +:+ b) = string_map f a +:+ string_map f b.
Proof. induction a as [|c a IH]; [done|]. cbn. by rewrite IH. Qed.

Lemma TrimRight_app a p cut :
  strings_TrimRight p cut = "" ->
  strings_TrimRight (a +:+ p) cut = strings_TrimRight a cut.
Proof.
  intros Hp. induction a as [|c a IH]; [done|].
  cbn [String.append strings_TrimRight]. by rewrite IH.
Qed.

Lemma TrimRight_replicate n c :
  strings_TrimRight (string_of_list_ascii (replicate n c)) c = "".
Proof.
  induction n as [|n IH]; [done|].
  cbn [replicate string_of_list_ascii strings_TrimRight].
  rewrite IH. by rewrite decide_True.
Qed.

Lemma remap_remap c : remap (remap c) = remap c.
Proof. each_byte c. Qed.

(** X16: [NewVerifier] does not check the padding, and takes the two
    alphabets for one: a key text followed by any number of [=], or with
    its [+] and [/] already replaced, gives what the key text gives. *)
Theorem NewVerifier_lenient (publicKey : string) (n : nat) :
  NewVerifier (publicKey +:+ string_of_list_ascii (replicate n "="%char))
  = NewVerifier publicKey
  /\ NewVerifier (strings_Replace (strings_Replace publicKey "+" "-") "/" "_")
     = NewVerifier publicKey.
Proof.
  unfold NewVerifier. rewrite !Replace_twice. split.
  - rewrite string_map_app, TrimRight_app; [done|].
    replace (string_map remap (string_of_list_ascii (replicate n "="%char)))
      with (string_of_list_ascii (replicate n "="%char)).
    + apply TrimRight_replicate.
    + induction n as [|n IH]; [done|]. cbn. by rewrite <- IH.
  - replace (string_map remap (string_map remap publicKey))
      with (string_map remap publicKey); [done|].
    induction publicKey as [|c s IH]; [done|]. cbn. by rewrite remap_remap, <- IH.
Qed.

(** ** The properties on requests *)

Lemma Canonize_signed_headers_only_witness :
  let H := ascii_runtime 0 in
  Canonize
    (set_Header example_request
       (<["Cookie" := ["a=b"]]> (Request_Header example_request)))
    (Body example_request)
  = (example_canonical, None).
Proof.
  intros H.
  rewrite (Canonize_signed_headers_only example_request); [reflexivity|].
  intros name Hin _.
  change (signed_header_names example_request) with ["date"; "x-signed-headers"] in Hin.
  apply elem_of_cons in Hin as [->|Hin]; [vm_compute; reflexivity|].
  apply elem_of_cons in Hin as [->|Hin]; [vm_compute; reflexivity|].
  by apply elem_of_nil in Hin.
Defined.

Lemma Canonize_query_order_witness :
  let H := ascii_runtime 0 in
  let req := mkRequest "GET" (mkURL "/" "" "a=1&b=2" "") ∅ "" (bytes_NewReader "") in
  Canonize (set_RawQuery req "b=2&a=1") (Body req) = Canonize req (Body req).
Proof.
  intros H req. apply Canonize_query_order.
  - vm_compute. apply perm_swap.
  - reflexivity.
Defined.

Lemma Canonize_no_signed_headers_witness :
  let H := ascii_runtime 0 in
  let req :=
    mkRequest "" (mkURL "/" "" "" "") (<["" := [" v "; "w"]]> ∅) ""
      (bytes_NewReader "body") in
  (Canonize req (Body req)).1
  = "get /" +:+ String LF
      (": v, w" +:+ String LF ("x-signed-headers: " +:+ String LF "body")).
Proof.
  intros H req.
  rewrite (Canonize_no_signed_headers req (Body req)); reflexivity.
Defined.

Lemma Verify_error_structured_witness :
  let H := ascii_runtime clock_2026 in
  let req :=
    mkRequest "GET" (mkURL "/" "" "" "")
      (<["X-Signed-Headers" := ["date"]]> (<["X-Signature" := ["AA AA"]]> ∅))
      "" (bytes_NewReader "") in
  exists e,
    result (@Verify H x_crypto (mkVerifier "") req (Body req))
    = Returns (Some (error_Error e))
    /\ e ∈ Verify_errors.
Proof.
  intros H req.
  destruct (@Verify_error_structured H x_crypto (mkVerifier "") req (Body req)
              (error_Error (mkError 400 "Could not parse X-Signature header")))
    as (e & He & Hin).
  - vm_compute. reflexivity.
  - exists e. split; [|exact Hin]. rewrite <- He. vm_compute. reflexivity.
Defined.

Lemma Verify_skew_window_witness :
  let H := ascii_runtime (test_date + PermittedTimeSkew + 1) in
  @Verify H x_crypto test_verifier (newReq good_signature) (bytes_NewReader test_body)
  = reject 400 "Request time skew is too great".
Proof.
  intros H.
  apply (proj2 (@Verify_skew_window H x_crypto test_verifier (newReq good_signature)
                  (bytes_NewReader test_body) test_signature test_date
                  ltac:(vm_compute; congruence) ltac:(vm_compute; reflexivity)
                  ltac:(vm_compute; congruence) ltac:(vm_compute; reflexivity)
                  ltac:(vm_compute; reflexivity))).
  vm_compute. reflexivity.
Defined.

Lemma Verify_panic_endorsed_witness :
  exists sig,
    ParseSignature short_key_chain = inl sig
    /\ String.length (PublicKey sig) ≠ PublicKeySize.
Proof.
  destruct (NewVerifier rfc8032_key) as [v|] eqn:Hv; [|by vm_compute in Hv].
  destruct (@Verify_panic_endorsed (ascii_runtime clock_2026) x_crypto rfc8032_key v
              short_key_request (Body short_key_request)
              "ed25519: bad public key length: 1" Hv)
    as (sig & Hsig & _ & Hlen).
  - vm_compute in Hv. injection Hv as <-. vm_compute. reflexivity.
  - exists sig. split; [exact Hsig | exact Hlen].
Defined.

Lemma Canonize_sorted_query_witness :
  let H := ascii_runtime 0 in
  let req :=
    mkRequest "GET" (mkURL "/v1" "" "A=3&a=1&a=2&b=" "") ∅ "" (bytes_NewReader "") in
  (Canonize req (Body req)).1
  = "get /v1?A=3&a=1&a=2&b=" +:+ String LF (header_section req +:+ "").
Proof.
  intros H req.
  rewrite (Canonize_sorted_query req (Body req));
    [reflexivity | done | vm_compute; repeat constructor].
Defined.

Lemma Validate_signature_sizes_witness :
  result (@Validate x_crypto (mkSignature "" "" "") (pk test_verifier) "")
  = Returns (Some (error_Error
      (mkError 401 "Request Public Key was not endorsed by Manifold"))).
Proof.
  apply (@Validate_signature_sizes x_crypto (mkSignature "" "" "") (pk test_verifier) "").
  - vm_compute. reflexivity.
  - vm_compute. congruence.
Defined.

Lemma ParseSignature_spaces_witness :
  ParseSignature "AA AA"
  = inr (error_Error (mkError 400 "Could not parse Signature chain")).
Proof.
  apply (proj2 (ParseSignature_spaces "AA AA")). vm_compute. congruence.
Defined.

Lemma Validate_panics_iff_witness :
  exists text, result (@Validate x_crypto (mkSignature "" "" "") "" "") = Panics text.
Proof.
  apply (proj2 (@Validate_panics_iff x_crypto (mkSignature "" "" "") "" "")).
  left. vm_compute. congruence.
Defined.

Lemma Verify_accepts_iff_witness :
  let H := ascii_runtime (test_date + time_Second) in
  result (@Verify H x_crypto test_verifier (newReq good_signature)
            (bytes_NewReader test_body))
  = Returns None.
Proof.
  intros H.
  apply (proj2 (@Verify_accepts_iff H x_crypto test_verifier (newReq good_signature)
                  (bytes_NewReader test_body))).
  exists test_signature, test_date.
  split; [vm_compute; reflexivity|].
  split; [vm_compute; congruence|].
  split; [vm_compute; reflexivity|].
  split; [vm_compute; reflexivity|].
  split; [vm_compute; reflexivity|].
  split; vm_compute; reflexivity.
Defined.

Lemma Negroni_closes_body_witness :
  let H := ascii_runtime clock_2026 in
  exists t,
    trace (@Negroni H x_crypto (mkVerifier "") far_future_request) = t ++ [BodyClose]
    /\ BodyClose ∉ t.
Proof.
  intros H.
  apply (proj1 (@Negroni_closes_body H x_crypto (mkVerifier "") far_future_request)).
  reflexivity.
Defined.
